(** * Universal Language Support Chatbot: the backend of [backend/app.py]

    A shallow embedding of the query classifier, the linguistic analyzer,
    the translation adapter, the LLM adapter and the HTTP handlers, with the
    properties of their specification.

    Modelling conventions.
    - A Python [str] is a [string]: a sequence of characters, each one a code
      point below 256.  On that range [lower], [strip], [split] and the
      substring test are the ones of Python; texts with code points from 256
      on are outside the model.
    - External collaborators (translation engine, language detector, LLM
      endpoint, speech model, codecs) are the fields of a class: every
      theorem holds for all of them.  A call that may raise returns a
      [PyResult]; the calls made are recorded in the world's log.
    - The file system is a finite map from paths to contents; [os.unlink]
      of a path that exists removes it.
    - [print] calls are not modelled. *)

From Stdlib Require Import String Ascii List Bool Arith Lia.
From stdpp Require Import base gmap strings.
Import ListNotations.
Open Scope string_scope.
Open Scope nat_scope.

(** ** Python string primitives *)

Module Py.

(** [str.isspace] of one character, as [str.strip] and [str.split] use it:
    the ASCII table of CPython plus U+0085 and U+00A0. *)
Definition isspace (c : ascii) : bool :=
  let n := nat_of_ascii c in
  ((9 <=? n) && (n <=? 13)) || ((28 <=? n) && (n <=? 32))
  || (n =? 133) || (n =? 160).

(** [str.lower] of one character: A-Z and the upper-case letters of the
    Latin-1 block (U+00C0..U+00DE without the multiplication sign). *)
Definition lower_char (c : ascii) : ascii :=
  let n := nat_of_ascii c in
  if ((65 <=? n) && (n <=? 90))
     || ((192 <=? n) && (n <=? 222) && negb (n =? 215))
  then ascii_of_nat (n + 32) else c.

Fixpoint lower (s : string) : string :=
  match s with
  | EmptyString => EmptyString
  | String c s' => String (lower_char c) (lower s')
  end.

(** [len(s)] *)
Definition len (s : string) : nat := String.length s.

(** [s.startswith(p)] *)
Fixpoint startswith (p s : string) : bool :=
  match p, s with
  | EmptyString, _ => true
  | String a p', String b s' => Ascii.eqb a b && startswith p' s'
  | String _ _, EmptyString => false
  end.

(** [needle in hay] *)
Fixpoint contains (needle hay : string) : bool :=
  startswith needle hay
  || match hay with
     | EmptyString => false
     | String _ hay' => contains needle hay'
     end.

(** [any(w in s for w in ws)] *)
Definition any_in (ws : list string) (s : string) : bool :=
  existsb (fun w => contains w s) ws.

(** [sum(1 for w in ws if w in s)] *)
Fixpoint sum_in (ws : list string) (s : string) : nat :=
  match ws with
  | [] => 0
  | w :: ws' => (if contains w s then 1 else 0) + sum_in ws' s
  end.

(** [s.lstrip()], [s.rstrip()], [s.strip()] *)
Fixpoint lstrip (s : string) : string :=
  match s with
  | EmptyString => EmptyString
  | String c s' => if isspace c then lstrip s' else s
  end.

Fixpoint rstrip (s : string) : string :=
  match s with
  | EmptyString => EmptyString
  | String c s' =>
      match rstrip s' with
      | EmptyString => if isspace c then EmptyString else String c EmptyString
      | r => String c r
      end
  end.

Definition strip (s : string) : string := rstrip (lstrip s).

(** [s.split()]: the maximal runs of non-space characters; the first
    component of [split_ws_go] is the word being read, empty when none is. *)
Fixpoint split_ws_go (s : string) : string * list string :=
  match s with
  | EmptyString => (EmptyString, [])
  | String c s' =>
      let '(w, ws) := split_ws_go s' in
      if isspace c
      then (EmptyString, match w with EmptyString => ws | _ => w :: ws end)
      else (String c w, ws)
  end.

Definition split_ws (s : string) : list string :=
  let '(w, ws) := split_ws_go s in
  match w with EmptyString => ws | _ => w :: ws end.

(** [s.split(sep)] for a non-empty [sep]: cut at the leftmost occurrences
    that do not overlap.  [skip] counts the characters of a separator just
    matched that are still to be passed; the head of the result is the
    rest of the piece being read. *)
Fixpoint split_go (sep : string) (skip : nat) (s : string) : list string :=
  match s with
  | EmptyString => [EmptyString]
  | String c s' =>
      match skip with
      | S k => split_go sep k s'
      | O =>
          if startswith sep s
          then EmptyString :: split_go sep (String.length sep - 1) s'
          else match split_go sep 0 s' with
               | p :: ps => String c p :: ps
               | [] => [String c EmptyString]
               end
      end
  end.

Definition split (sep s : string) : list string := split_go sep 0 s.

(** [s.split(sep, 1)[-1]]: what follows the first [sep], the whole of [s]
    when there is none. *)
Fixpoint drop (n : nat) (s : string) : string :=
  match n, s with
  | S k, String _ s' => drop k s'
  | _, _ => s
  end.

Fixpoint after_first (sep s : string) : string :=
  match s with
  | EmptyString => EmptyString
  | String c s' =>
      if startswith sep s then drop (String.length sep) s
      else if contains sep s' then after_first sep s' else s
  end.

(** [sep.join(parts)] *)
Fixpoint join (sep : string) (parts : list string) : string :=
  match parts with
  | [] => EmptyString
  | [p] => p
  | p :: ps => p +:+ sep +:+ join sep ps
  end.

(** [s[:n]] *)
Fixpoint take (n : nat) (s : string) : string :=
  match n, s with
  | S k, String c s' => String c (take k s')
  | _, _ => EmptyString
  end.

(** [c * n] for a one-character string *)
Fixpoint replicate (n : nat) (c : ascii) : string :=
  match n with
  | O => EmptyString
  | S k => String c (replicate k c)
  end.

(** The two-character separator ["\n\n"]. *)
Definition nl : string := String (ascii_of_nat 10) EmptyString.
Definition nlnl : string := nl +:+ nl.

End Py.

(** ** Query classifier ([UniversalChatbot.classify_query]) *)

Inductive QueryIntent :=
| translation | sdg_equality | help_info | greeting
| language_culture | general_question | general.

Definition translation_patterns : list string :=
  ["translate"; "translation"; "convert to"; "how to say"; "what does";
   "mean in"; "say in"].

Definition sdg_words : list string :=
  ["sdg"; "sustainable development"; "inequality"; "equality";
   "discrimination"; "rights"; "barrier"].

Definition help_words : list string :=
  ["help"; "what can you do"; "features"; "how do you work"; "capabilities"].

Definition greeting_words : list string :=
  ["hello"; "hi"; "hey"; "greetings"; "good morning"; "good afternoon"].

Definition language_culture_words : list string :=
  ["language"; "speak"; "communication"; "culture"; "cultural"; "idiom";
   "phrase"; "expression"; "formality"; "formal"; "informal"; "grammar";
   "figurative"; "literal"; "politeness"; "ambiguous"; "ambiguity";
   "sentiment"; "tone"].

Definition technology_words : list string :=
  ["technology"; "ai"; "artificial intelligence"; "machine learning"; "nlp";
   "natural language"; "computer"; "programming"; "science"; "physics";
   "chemistry"; "biology"; "mathematics"].

Definition question_words : list string :=
  ["what is"; "how does"; "why is"; "explain"; "tell me about"; "describe";
   "define"; "difference between"].

Definition classify_query (message_lower : string) : QueryIntent :=
  if Py.any_in translation_patterns message_lower then translation
  else if Py.any_in sdg_words message_lower then sdg_equality
  else if Py.any_in help_words message_lower then help_info
  else if Py.any_in greeting_words message_lower
          && (length (Py.split_ws message_lower) <=? 5) then greeting
  else if Py.any_in language_culture_words message_lower then language_culture
  else if Py.any_in technology_words message_lower then general_question
  else if Py.any_in question_words message_lower
          || Py.contains "?" message_lower then general_question
  else general.

(** The classifier as the specification words it: seven rules, each a
    condition on the message and the intent it yields, tried in order; the
    last one always applies. *)

Definition rule : Type := (string -> bool) * QueryIntent.

Definition classifier_rules : list rule :=
  [ (Py.any_in translation_patterns, translation);
    (Py.any_in sdg_words, sdg_equality);
    (Py.any_in help_words, help_info);
    (fun m => Py.any_in greeting_words m && (length (Py.split_ws m) <=? 5),
     greeting);
    (Py.any_in language_culture_words, language_culture);
    (fun m => Py.any_in technology_words m
              || (Py.any_in question_words m || Py.contains "?" m),
     general_question);
    (fun _ => true, general) ].

Fixpoint first_match (rules : list rule) (m : string) : option QueryIntent :=
  match rules with
  | [] => None
  | (cond, intent) :: rest => if cond m then Some intent else first_match rest m
  end.


(** ** Linguistic analyzer ([UniversalChatbot.detect_linguistic_complexity]) *)

Inductive Formality := formal | informal | neutral_formality.
Inductive Sentiment := positive_sentiment | negative_sentiment | neutral_sentiment.
Inductive GrammarComplexity := simple | moderate | complex.

Record LinguisticProfile := {
  has_idioms : bool;
  formality_level : Formality;
  has_cultural_references : bool;
  sentiment : Sentiment;
  grammar_complexity : GrammarComplexity
}.

Definition idiom_patterns : list string :=
  ["piece of cake"; "break a leg"; "it's raining cats and dogs";
   "kill two birds"; "the ball is in your court"; "break the ice";
   "once in a blue moon"; "bite the bullet"; "hit the nail on the head";
   "when pigs fly"].

Definition formal_indicators : list string :=
  ["sir"; "madam"; "please"; "kindly"; "would you"; "could you"; "may i"].

Definition informal_indicators : list string :=
  ["hey"; "yo"; "what's up"; "gonna"; "wanna"; "yeah"; "nah"].

Definition detect_formality_level (text_lower : string) : Formality :=
  let formal_count := Py.sum_in formal_indicators text_lower in
  let informal_count := Py.sum_in informal_indicators text_lower in
  if informal_count <? formal_count then formal
  else if formal_count <? informal_count then informal
  else neutral_formality.

Definition cultural_keywords : list string :=
  ["thanksgiving"; "diwali"; "christmas"; "ramadan"; "new year";
   "subway"; "underground"; "tube"; "metro"; "football"; "soccer";
   "dollars"; "euros"; "pounds"; "rupees"; "yen"].

Definition detect_cultural_references (text_lower : string) : bool :=
  Py.any_in cultural_keywords text_lower.

Definition positive_words : list string :=
  ["great"; "excellent"; "wonderful"; "amazing"; "fantastic"; "love"; "happy"].

Definition negative_words : list string :=
  ["terrible"; "awful"; "hate"; "angry"; "frustrated"; "disappointed"; "bad"].

Definition detect_sentiment_indicators (text_lower : string) : Sentiment :=
  let positive_count := Py.sum_in positive_words text_lower in
  let negative_count := Py.sum_in negative_words text_lower in
  if negative_count <? positive_count then positive_sentiment
  else if positive_count <? negative_count then negative_sentiment
  else neutral_sentiment.

Definition complex_markers : list string :=
  ["however"; "nevertheless"; "furthermore"; "consequently"; "meanwhile";
   "which"; "whom"; "whose"; "that"; "although"; "whereas"].

(** [sum(len(s.split()) for s in sentences)] *)
Definition total_words (sentences : list string) : nat :=
  list_sum (map (fun s => length (Py.split_ws s)) sentences).

(** The mean sentence length is the quotient [total / count] of two
    integers, compared with 15 and with 8; the comparisons are made on the
    integers, [total > 15 * count], which is what the quotient gives for
    any text that fits in memory. *)
Definition assess_grammar_complexity (text : string) : GrammarComplexity :=
  let sentences := Py.split "." text in
  let total := total_words sentences in
  let count := Nat.max (length sentences) 1 in
  let has_complex_structures := Py.any_in complex_markers (Py.lower text) in
  if (15 * count <? total) || has_complex_structures then complex
  else if 8 * count <? total then moderate
  else simple.

Definition detect_linguistic_complexity (text : string) : LinguisticProfile :=
  let text_lower := Py.lower text in
  {| has_idioms := Py.any_in idiom_patterns text_lower;
     formality_level := detect_formality_level text_lower;
     has_cultural_references := detect_cultural_references text_lower;
     sentiment := detect_sentiment_indicators text_lower;
     grammar_complexity := assess_grammar_complexity text |}.

(** The verdict of two keyword counts as the specification words it: the
    strictly greater count wins, a tie gives the neutral verdict. *)
Definition count_present (keywords : list string) (text_lower : string) : nat :=
  length (List.filter (fun k => Py.contains k text_lower) keywords).

Inductive Verdict := first_wins | second_wins | tie.

Definition strictly_greater (a b : nat) : Verdict :=
  match Nat.compare a b with
  | Gt => first_wins
  | Lt => second_wins
  | Eq => tie
  end.


Definition formality_of (v : Verdict) : Formality :=
  match v with
  | first_wins => formal
  | second_wins => informal
  | tie => neutral_formality
  end.

Definition sentiment_of (v : Verdict) : Sentiment :=
  match v with
  | first_wins => positive_sentiment
  | second_wins => negative_sentiment
  | tie => neutral_sentiment
  end.

(** ** The outside world

    What the backend reaches through its libraries.  [Env] is the state of
    the external services; a call reads it and may change it, so two calls
    with the same arguments need not answer alike. *)

(** An exception that was raised: [str(e)], and whether it is a
    [requests.exceptions.ConnectionError]. *)
Record Exn := { exn_str : string; is_connection_error : bool }.

Inductive PyResult (A : Type) :=
| Raised (e : Exn)
| Returned (a : A).
Arguments Raised {A} e.
Arguments Returned {A} a.

(** The generation options sent to the LLM endpoint; decimal constants are
    kept as written. *)
Record GenOptions := {
  temperature : string;
  max_tokens : nat;
  top_p : string;
  num_predict : nat;
  top_k : option nat;
  repeat_penalty : option string;
  stop : list string
}.

Record Payload := {
  model : string;
  prompt : string;
  stream : bool;
  options : GenOptions
}.

(** An HTTP response: its status, its body as a JSON object of strings
    ([None] when the body is no JSON, where [response.json()] raises) and
    its raw text. *)
Record HttpResponse := {
  status_code : nat;
  json : option (gmap string string);
  text : string
}.

(** What [whisper_model.transcribe] returns: a dict that may lack keys. *)
Record Transcription (Num : Type) := {
  tr_text : option string;
  tr_language : option string;
  tr_avg_logprob : option Num
}.
Arguments tr_text {Num} _.
Arguments tr_language {Num} _.
Arguments tr_avg_logprob {Num} _.

Inductive FallbackKind :=
| fb_greeting | fb_translation | fb_help | fb_sdg | fb_question | fb_default.

Definition path := string.
Definition bytes := list Byte.byte.

Class External (Env : Type) := {
  (** the model name chosen once at start-up *)
  MODEL_NAME : string;
  (** [langdetect.detect(text)] *)
  langdetect_detect : string -> Env -> PyResult string * Env;
  (** [translator.translate(text, dest=.., src=..).text] *)
  translator_translate :
    string -> string -> string -> Env -> PyResult string * Env;
  (** [requests.post(url, json=payload, timeout=..)] *)
  requests_post : string -> Payload -> nat -> Env -> PyResult HttpResponse * Env;
  (** [requests.get(url, timeout=..)] *)
  requests_get : string -> nat -> Env -> PyResult HttpResponse * Env;
  (** the canned replies of [get_fallback_response] in Spanish, French and
      Hindi, which hold characters outside the model: kind, language code
      and message give the text *)
  localized_reply : FallbackKind -> string -> string -> string;
  (** [bytes.decode('utf-8')], [None] for [UnicodeDecodeError] *)
  decode_utf8 : bytes -> option string;
  (** [bytes.decode('utf-8', errors='ignore')] *)
  decode_utf8_ignore : bytes -> PyResult string;
  (** [chardet.detect(b).get('encoding', 'utf-8')], which may be [None],
      or the exception the detection raises *)
  chardet_encoding : bytes -> PyResult (option string);
  (** [bytes.decode(encoding)] for a detected encoding *)
  decode_with : option string -> bytes -> PyResult string;
  (** [WHISPER_AVAILABLE] *)
  WHISPER_AVAILABLE : bool;
  (** the type of [avg_logprob] and its default [0] *)
  Num : Type;
  num_zero : Num;
  (** [base64.b64decode] *)
  b64decode : string -> PyResult bytes;
  (** the name [tempfile.NamedTemporaryFile(delete=False, suffix='.wav')]
      picks, or the exception it raises *)
  mkstemp_name : Env -> gmap path bytes -> PyResult path;
  (** whether [temp_file.write] goes through *)
  write_result : Env -> path -> bytes -> PyResult unit;
  (** [whisper_model.transcribe(path, language=..)]; it may touch the file
      system *)
  whisper_transcribe :
    path -> option string -> Env -> gmap path bytes ->
    PyResult (Transcription Num) * Env * gmap path bytes
}.

(** What the backend did to the outside, in order, latest first. *)
Inductive Event :=
| ev_detect (text : string)
| ev_translate (text dest src : string)
| ev_post (url : string) (p : Payload) (timeout : nat)
| ev_get (url : string) (timeout : nat)
| ev_create (p : path)
| ev_write (p : path) (data : bytes)
| ev_unlink (p : path)
| ev_transcribe (p : path) (language : option string).

Record World (Env : Type) := {
  env : Env;
  fs : gmap path bytes;
  log : list Event
}.
Arguments env {Env} _.
Arguments fs {Env} _.
Arguments log {Env} _.

(** A computation that reads and changes the world and returns or raises. *)
Definition M (Env A : Type) : Type := World Env -> PyResult A * World Env.

Definition ret {Env A} (a : A) : M Env A := fun w => (Returned a, w).

Definition raise {Env A} (e : Exn) : M Env A := fun w => (Raised e, w).

Definition bind {Env A B} (m : M Env A) (k : A -> M Env B) : M Env B :=
  fun w =>
    match m w with
    | (Returned a, w') => k a w'
    | (Raised e, w') => (Raised e, w')
    end.

(** [try: m  except Exception as e: h e] *)
Definition try_except {Env A} (m : M Env A) (h : Exn -> M Env A) : M Env A :=
  fun w =>
    match m w with
    | (Returned a, w') => (Returned a, w')
    | (Raised e, w') => h e w'
    end.

(** [try: m  finally: f]; an exception of [f] replaces the outcome of [m]. *)
Definition try_finally {Env A} (m : M Env A) (f : M Env unit) : M Env A :=
  fun w =>
    match m w with
    | (r, w') =>
        match f w' with
        | (Returned _, w'') => (r, w'')
        | (Raised e, w'') => (Raised e, w'')
        end
    end.

Notation "'let!' x ':=' m 'in' k" := (bind m (fun x => k))
  (at level 10, x name, m at level 100, k at level 200).

(** An external call that only concerns [Env], logged as [ev]. *)
Definition call {Env A} (ev : Event) (f : Env -> PyResult A * Env) : M Env A :=
  fun w =>
    let '(r, e') := f (env w) in
    (r, {| env := e'; fs := fs w; log := ev :: log w |}).

(** ** Translation adapter *)

(** [self.supported_languages], in the order the dict is written. *)
Definition supported_languages : list (string * string) :=
  [("en", "English"); ("es", "Spanish"); ("fr", "French"); ("de", "German");
   ("hi", "Hindi"); ("te", "Telugu"); ("mr", "Marathi"); ("kn", "Kannada");
   ("gu", "Gujarati"); ("ta", "Tamil"); ("ml", "Malayalam"); ("pa", "Punjabi");
   ("ar", "Arabic"); ("zh", "Chinese"); ("ja", "Japanese"); ("ko", "Korean");
   ("pt", "Portuguese"); ("ru", "Russian"); ("it", "Italian")].

(** [code in self.supported_languages] *)
Definition is_supported (code : string) : bool :=
  existsb (fun kv => String.eqb (fst kv) code) supported_languages.

Definition idiom_note : string :=
  "Note: This text contains idioms that may not translate literally.".

Definition cultural_note : string :=
  "Note: This text contains cultural references that may need localization.".

Definition max_chunk_size : nat := 4000.

Section Adapter.
Context {Env : Type} `{Ext : External Env}.

Definition detect_language (text : string) : M Env string :=
  try_except
    (let! detected := call (ev_detect text) (langdetect_detect text) in
     ret (if is_supported detected then detected else "en"))
    (fun _ => ret "en").

(** [if source_language is None: source_language = detect_language(text)] *)
Definition resolve_source (source_language : option string) (text : string)
    : M Env string :=
  match source_language with
  | None => detect_language text
  | Some s => ret s
  end.

Definition translate_text (text target_language : string)
    (source_language : option string) : M Env string :=
  try_except
    (let! source_language := resolve_source source_language text in
     if String.eqb source_language target_language then ret text
     else
       let complexity := detect_linguistic_complexity text in
       if has_idioms complexity || has_cultural_references complexity then
         let! translated :=
           call (ev_translate text target_language source_language)
                (translator_translate text target_language source_language) in
         let explanatory_notes :=
           ((if has_idioms complexity then [idiom_note] else [])
            ++ (if has_cultural_references complexity
                then [cultural_note] else []))%list in
         match explanatory_notes with
         | [] => ret translated
         | _ => ret (translated +:+ Py.nlnl +:+ Py.join " " explanatory_notes)
         end
       else
         call (ev_translate text target_language source_language)
              (translator_translate text target_language source_language))
    (fun e => ret ("Translation failed: " +:+ exn_str e)).

(** [if current_chunk.strip(): translated_paragraphs.append(translate_text(
    current_chunk.strip(), ..))] *)
Definition flush_chunk (target_language : string)
    (source_language : option string)
    (translated_paragraphs : list string) (current_chunk : string)
    : M Env (list string) :=
  if negb (String.eqb (Py.strip current_chunk) "") then
    let! translated_chunk :=
      translate_text (Py.strip current_chunk) target_language
        source_language in
    ret (translated_paragraphs ++ [translated_chunk])%list
  else ret translated_paragraphs.

(** The [for paragraph in paragraphs] loop; its state is
    [translated_paragraphs] and [current_chunk]. *)
Fixpoint chunk_loop (target_language : string)
    (source_language : option string) (paragraphs : list string)
    (translated_paragraphs : list string) (current_chunk : string)
    : M Env (list string * string) :=
  match paragraphs with
  | [] => ret (translated_paragraphs, current_chunk)
  | paragraph :: rest =>
      if Py.len (current_chunk +:+ paragraph +:+ Py.nlnl) <=? max_chunk_size
      then chunk_loop target_language source_language rest
             translated_paragraphs (current_chunk +:+ paragraph +:+ Py.nlnl)
      else
        let! translated_paragraphs :=
          flush_chunk target_language source_language
            translated_paragraphs current_chunk in
        chunk_loop target_language source_language rest
          translated_paragraphs (paragraph +:+ Py.nlnl)
  end.

Definition translate_file_content (text_content target_language : string)
    (source_language : option string) : M Env string :=
  try_except
    (if String.eqb text_content ""
        || String.eqb (Py.strip text_content) ""
     then ret "File appears to be empty or unreadable."
     else if Py.len text_content <=? max_chunk_size
     then translate_text text_content target_language source_language
     else
       let paragraphs := Py.split Py.nlnl text_content in
       let! st :=
         chunk_loop target_language source_language paragraphs [] "" in
       let! translated_paragraphs :=
         flush_chunk target_language source_language (fst st) (snd st) in
       ret (Py.join Py.nlnl translated_paragraphs))
    (fun e => ret ("Translation error: " +:+ exn_str e)).

End Adapter.

(** ** LLM adapter *)

Definition OLLAMA_URL : string := "http://localhost:11434/api/generate".

Definition dquote : string := String (ascii_of_nat 34) EmptyString.

(** [str(b)] of a Python bool *)
Definition str_bool (b : bool) : string := if b then "True" else "False".

Definition str_formality (f : Formality) : string :=
  match f with
  | formal => "formal"
  | informal => "informal"
  | neutral_formality => "neutral"
  end.

Definition str_sentiment (s : Sentiment) : string :=
  match s with
  | positive_sentiment => "positive"
  | negative_sentiment => "negative"
  | neutral_sentiment => "neutral"
  end.

Definition str_grammar (g : GrammarComplexity) : string :=
  match g with
  | simple => "simple"
  | moderate => "moderate"
  | complex => "complex"
  end.

(** The canned English replies of [get_fallback_response]. *)
Definition english_reply (kind : FallbackKind) (message : string) : string :=
  match kind with
  | fb_greeting =>
      "Hello! I'm your Universal Language Support Assistant. I can help you with questions, translations, and information about equality and inclusion. What would you like to know?"
  | fb_translation =>
      "I can help you translate text between multiple languages! Just tell me what you'd like to translate and which language you want it in. For example: 'Translate Hello to Spanish' or just type your text and I'll help translate it."
  | fb_help =>
      "I can help you with: 1) Answering questions on various topics, 2) Translating between 12+ languages, 3) Voice input and output, 4) Information about equality and reducing inequalities (SDG 10), 5) Cross-cultural communication. What would you like assistance with?"
  | fb_sdg =>
      "SDG 10 aims to reduce inequalities within and among countries. This includes promoting equal opportunities, fighting discrimination, and ensuring inclusive participation in society. I can help you understand specific aspects of inequality or suggest ways to promote equality. What would you like to know?"
  | fb_question =>
      "I understand you're asking about '" +:+ message +:+
      "'. While I can help with many topics including translations, equality issues, and general questions, I'd be happy to provide more specific information if you could rephrase your question. What exactly would you like to know?"
  | fb_default =>
      "Thank you for your message: '" +:+ message +:+
      "'. I'm here to help with translations, answer questions, and provide information about equality and inclusion. Could you please let me know specifically how I can assist you today?"
  end.

(** The keys of the [responses] dict of each branch, [en] apart. *)
Definition localized_languages (kind : FallbackKind) : list string :=
  match kind with
  | fb_greeting => ["es"; "fr"; "hi"]
  | _ => ["es"; "fr"]
  end.

Definition fallback_kind (message : string) : FallbackKind :=
  let message_lower := Py.lower message in
  if Py.any_in ["hello"; "hi"; "hey"; "greetings"; "good morning";
                "good afternoon"; "good evening"] message_lower
  then fb_greeting
  else if Py.any_in ["translate"; "translation"; "convert"] message_lower
  then fb_translation
  else if Py.any_in ["help"; "what can you do"; "how do you work"; "features"]
            message_lower
  then fb_help
  else if Py.any_in ["inequality"; "discrimination"; "equality"; "rights";
                     "inclusion"; "sdg"; "sustainable"] message_lower
  then fb_sdg
  else if Py.contains "?" message
          || Py.any_in ["what"; "how"; "why"; "when"; "where"; "who"]
               message_lower
  then fb_question
  else fb_default.

Definition translation_stop : list string :=
  [Py.nlnl +:+ "Translate"; Py.nlnl +:+ "Note:"; "Guidelines:"; "IMPORTANT:"].

Definition chat_stop : list string :=
  [Py.nlnl +:+ "User:"; Py.nlnl +:+ "Human:"; "###"; Py.nlnl +:+ "---"].

(** The prompt of [generate_response_with_ollama] for each intent. *)
Definition chat_prompt (query_type : QueryIntent) (message : string) : string :=
  match query_type with
  | translation =>
      "Help with this translation request: " +:+ message +:+ Py.nlnl +:+
      "Provide accurate translation with cultural context. If it's an idiom or cultural expression, explain the meaning and provide equivalent expressions."
  | general_question =>
      "Question: " +:+ message +:+ Py.nlnl +:+
      "Provide a clear, accurate answer. Be concise but comprehensive."
  | greeting =>
      "User greeting: " +:+ message +:+ Py.nlnl +:+
      "Respond warmly and professionally. Briefly mention your translation and language support capabilities."
  | language_culture =>
      "Language/culture question: " +:+ message +:+ Py.nlnl +:+
      "Provide expert information about linguistic nuances, cultural contexts, and cross-cultural communication."
  | _ =>
      "User message: " +:+ message +:+ Py.nlnl +:+
      "Provide a helpful, accurate response. Focus on being informative and relevant."
  end.

(** The f-string of [enhanced_translate_with_context]. *)
Definition context_prompt (text target_language : string)
    (source_language : option string) (complexity : LinguisticProfile)
    : string :=
  let source :=
    match source_language with
    | None | Some EmptyString => "auto-detected language"
    | Some s => s
    end in
  Py.join Py.nl
    [ "";
      "Translate the following text from " +:+ source +:+ " to "
        +:+ target_language +:+ ".";
      "";
      "IMPORTANT CONSIDERATIONS:";
      "- Formality level: " +:+ str_formality (formality_level complexity);
      "- Contains idioms: " +:+ str_bool (has_idioms complexity);
      "- Cultural references: "
        +:+ str_bool (has_cultural_references complexity);
      "- Sentiment: " +:+ str_sentiment (sentiment complexity);
      "- Grammar complexity: " +:+ str_grammar (grammar_complexity complexity);
      "";
      "TRANSLATION GUIDELINES:";
      "1. Preserve the formality level ("
        +:+ str_formality (formality_level complexity) +:+ ")";
      "2. If idioms are present, provide culturally appropriate equivalents in "
        +:+ target_language;
      "3. Adapt cultural references to " +:+ target_language
        +:+ " context when appropriate";
      "4. Maintain the emotional tone ("
        +:+ str_sentiment (sentiment complexity) +:+ ")";
      "5. Preserve the meaning while adapting to natural " +:+ target_language
        +:+ " word order";
      "";
      "Text to translate: " +:+ dquote +:+ text +:+ dquote;
      "";
      "Provide ONLY the translation, nothing else." ].

Section Llm.
Context {Env : Type} `{Ext : External Env}.

(** [response.json()] *)
Definition response_json (response : HttpResponse)
    : M Env (gmap string string) :=
  match json response with
  | Some result => ret result
  | None => raise {| exn_str := "Expecting value";
                     is_connection_error := false |}
  end.

Definition get_fallback_response (message language : string) : string :=
  let kind := fallback_kind message in
  if existsb (String.eqb language) (localized_languages kind)
  then localized_reply kind language message
  else english_reply kind message.

Definition get_ai_translation (prompt : string) : M Env (option string) :=
  try_except
    (let payload :=
       {| model := MODEL_NAME; prompt := prompt; stream := false;
          options := {| temperature := "0.1"; max_tokens := 500;
                        top_p := "0.9"; num_predict := 500;
                        top_k := None; repeat_penalty := None;
                        stop := translation_stop |} |} in
     let! response :=
       call (ev_post OLLAMA_URL payload 20)
            (requests_post OLLAMA_URL payload 20) in
     if status_code response =? 200 then
       let! result := response_json response in
       let translation := Py.strip (default "" (result !! "response")) in
       if negb (String.eqb translation "")
          && negb (Py.startswith "I cannot" translation)
          && negb (Py.startswith "Sorry" translation)
       then ret (Some translation)
       else ret None
     else ret None)
    (fun _ => ret None).

Definition enhanced_translate_with_context (text target_language : string)
    (source_language : option string) : M Env string :=
  try_except
    (let complexity := detect_linguistic_complexity text in
     let context_prompt :=
       context_prompt text target_language source_language complexity in
     let plain := translate_text text target_language source_language in
     if has_idioms complexity
        || match formality_level complexity with
           | neutral_formality => false
           | _ => true
           end
        || has_cultural_references complexity
     then
       let! ai_translation := get_ai_translation context_prompt in
       match ai_translation with
       | Some t =>
           if negb (String.eqb t "") && (0 <? Py.len (Py.strip t))
           then ret t else plain
       | None => plain
       end
     else plain)
    (fun _ => translate_text text target_language source_language).

(** The cleaning of a non-empty generated response: a leading
    ["as an ai"] sentence, then a leading ["as a"] sentence, is cut at its
    first period. *)
Definition strip_disclaimers (generated_response : string) : string :=
  let g1 :=
    if Py.startswith "as an ai" (Py.lower generated_response)
    then Py.strip (Py.after_first "." generated_response)
    else generated_response in
  if Py.startswith "as a" (Py.lower g1)
  then Py.strip (Py.after_first "." g1)
  else g1.

Definition generate_response_with_ollama (message language : string)
    : M Env string :=
  try_except
    (let message_lower := Py.lower message in
     let query_type := classify_query message_lower in
     let prompt := chat_prompt query_type message in
     let payload :=
       {| model := MODEL_NAME; prompt := prompt; stream := false;
          options := {| temperature := "0.3"; max_tokens := 400;
                        top_p := "0.9"; num_predict := 400;
                        top_k := Some 40; repeat_penalty := Some "1.1";
                        stop := chat_stop |} |} in
     let! response :=
       call (ev_post OLLAMA_URL payload 30)
            (requests_post OLLAMA_URL payload 30) in
     if status_code response =? 200 then
       let! result := response_json response in
       let generated_response :=
         Py.strip (default "" (result !! "response")) in
       if negb (String.eqb generated_response "") then
         let generated_response := strip_disclaimers generated_response in
         if 10 <? Py.len generated_response then ret generated_response
         else ret (get_fallback_response message language)
       else ret (get_fallback_response message language)
     else ret (get_fallback_response message language))
    (fun _ => ret (get_fallback_response message language)).

End Llm.

(** ** File-text extraction ([UniversalChatbot.extract_text_from_file]) *)

(** [os.path.splitext(filename)[1]] (POSIX): from the last dot of the last
    path component on, unless only dots come before it there. *)
Fixpoint basename (s : string) : string :=
  match s with
  | EmptyString => EmptyString
  | String c s' =>
      if Py.contains "/" s then basename s' else s
  end.

Fixpoint from_last_dot (s : string) : string :=
  match s with
  | EmptyString => EmptyString
  | String c s' =>
      if Py.contains "." s' then from_last_dot s'
      else if Ascii.eqb c "." then s else EmptyString
  end.

Fixpoint only_dots (s : string) : bool :=
  match s with
  | EmptyString => true
  | String c s' => Ascii.eqb c "." && only_dots s'
  end.

Definition splitext_ext (filename : string) : string :=
  let name := basename filename in
  let ext := from_last_dot name in
  let stem := Py.take (String.length name - String.length ext) name in
  if only_dots stem then EmptyString else ext.

(** [bytes.decode('latin-1')]: every byte is the character of its code. *)
Definition decode_latin1 (b : bytes) : string :=
  string_of_list_ascii (map ascii_of_byte b).

Definition text_extensions : list string :=
  [".txt"; ".md"; ".py"; ".js"; ".html"; ".css"; ".json"; ".xml"; ".csv"].

Section Extract.
Context {Env : Type} `{Ext : External Env}.

(** The outer [except] of the source answers ["Error reading file: ..."];
    of what it guards, only the encoding detection can raise. *)
Definition extract_text_from_file (file_content : bytes) (filename : string)
    : string :=
  let file_extension := Py.lower (splitext_ext filename) in
  if existsb (String.eqb file_extension) text_extensions then
    match decode_utf8 file_content with
    | Some s => s
    | None =>
        match chardet_encoding file_content with
        | Raised e => "Error reading file: " +:+ exn_str e
        | Returned encoding =>
            match decode_with encoding file_content with
            | Returned s => s
            | Raised _ => decode_latin1 file_content
            end
        end
    end
  else if String.eqb file_extension ".pdf" then
    "PDF file detected. Please convert to text format for translation."
  else if existsb (String.eqb file_extension) [".doc"; ".docx"] then
    "Word document detected. Please save as text file for translation."
  else
    match decode_utf8_ignore file_content with
    | Returned s => s
    | Raised _ =>
        "Unsupported file format. Please use text files (.txt, .md, .py, etc.)"
    end.

End Extract.

(** ** HTTP handlers *)

(** An uploaded file, [request.files['file']]. *)
Record FileStorage := { filename : string; file_bytes : bytes }.

(** A multipart request: the uploaded file, if any, and the form fields. *)
Record FileRequest := {
  files_file : option FileStorage;
  form : gmap string string
}.

Record FileReport := {
  original_filename : string;
  file_size : nat;
  file_type : string;
  detected_language : string;
  source_language : string;
  target_language : string;
  original_content : string;
  translated_content : string;
  char_count : nat;
  translated_char_count : nat
}.

(** The JSON bodies the handlers return. *)
Inductive Body (N : Type) :=
| body_error (error : string)
| body_transcription (transcription detected : string) (confidence : N)
| body_health (status : string) (ollama_connected : bool)
    (languages : list string)
| body_file (report : FileReport).
Arguments body_error {N} error.
Arguments body_transcription {N} transcription detected confidence.
Arguments body_health {N} status ollama_connected languages.
Arguments body_file {N} report.

Section Handlers.
Context {Env : Type} `{Ext : External Env}.

Definition Response : Type := Body Num * nat.

(** [tempfile.NamedTemporaryFile(delete=False, suffix='.wav')]: the file
    exists, empty, from here on. *)
Definition named_temporary_file : M Env path :=
  fun w =>
    match mkstemp_name (env w) (fs w) with
    | Raised e => (Raised e, w)
    | Returned p =>
        (Returned p,
         {| env := env w; fs := <[p := []]> (fs w);
            log := ev_create p :: log w |})
    end.

(** [temp_file.write(data)] *)
Definition file_write (p : path) (data : bytes) : M Env unit :=
  fun w =>
    match write_result (env w) p data with
    | Raised e => (Raised e, w)
    | Returned _ =>
        (Returned tt,
         {| env := env w; fs := <[p := data]> (fs w);
            log := ev_write p data :: log w |})
    end.

(** [os.path.exists(p)] *)
Definition os_path_exists (p : path) : M Env bool :=
  fun w => (Returned (bool_decide (is_Some (fs w !! p))), w).

(** [os.unlink(p)] *)
Definition os_unlink (p : path) : M Env unit :=
  fun w =>
    match fs w !! p with
    | Some _ =>
        (Returned tt,
         {| env := env w; fs := delete p (fs w);
            log := ev_unlink p :: log w |})
    | None =>
        (Raised {| exn_str := "No such file or directory";
                   is_connection_error := false |}, w)
    end.

(** [whisper_model.transcribe(p, language=..)] *)
Definition transcribe (p : path) (language : option string)
    : M Env (Transcription Num) :=
  fun w =>
    let '(r, e', fs') := whisper_transcribe p language (env w) (fs w) in
    (r, {| env := e'; fs := fs';
           log := ev_transcribe p language :: log w |}).

(** Raising an exception that is no [ConnectionError]; [msg] is [str(e)]. *)
Definition raise_msg {A} (msg : string) : M Env A :=
  raise {| exn_str := msg; is_connection_error := false |}.

(** The body of the [try] block: transcribe and build the answer. *)
Definition transcribe_request (temp_file_path : path) (language : string)
    : M Env Response :=
  let! result :=
    transcribe temp_file_path
      (if String.eqb language "auto" then None else Some language) in
  let! text :=
    match tr_text result with
    | Some t => ret t
    | None => raise_msg "'text'"
    end in
  let transcription := Py.strip text in
  let detected_language := default language (tr_language result) in
  ret (body_transcription transcription detected_language
         (default num_zero (tr_avg_logprob result)), 200).

(** The [finally] block:
    [if os.path.exists(temp_file_path): os.unlink(temp_file_path)] *)
Definition remove_if_exists (temp_file_path : path) : M Env unit :=
  let! present := os_path_exists temp_file_path in
  if present then os_unlink temp_file_path else ret tt.

(** [POST /api/speech-to-text]; [request_json] is [request.get_json()],
    [None] when the body is no JSON object. *)
Definition speech_to_text (request_json : option (gmap string string))
    : M Env Response :=
  try_except
    (if negb WHISPER_AVAILABLE then
       ret (body_error
              "Speech recognition not available on server. Using browser recognition.",
            400)
     else
       let! data :=
         match request_json with
         | Some d => ret d
         | None => raise_msg "'NoneType' object has no attribute 'get'"
         end in
       let audio_data := default "" (data !! "audio") in
       let language := default "en" (data !! "language") in
       if String.eqb audio_data "" then
         ret (body_error "No audio data provided", 400)
       else
         let! audio_bytes := (fun w => (b64decode audio_data, w)) in
         let! temp_file_path := named_temporary_file in
         let! _ := file_write temp_file_path audio_bytes in
         try_finally
           (transcribe_request temp_file_path language)
           (remove_if_exists temp_file_path))
    (fun _ => ret (body_error "Speech recognition failed", 500)).

(** [GET /api/health] *)
Definition health : M Env Response :=
  let! ollama_status :=
    try_except
      (let! response :=
         call (ev_get "http://localhost:11434/api/version" 5)
              (requests_get "http://localhost:11434/api/version" 5) in
       ret (status_code response =? 200))
      (fun _ => ret false) in
  ret (body_health "healthy" ollama_status (map fst supported_languages),
       200).

(** [POST /api/translate-file] *)
Definition translate_file (request : FileRequest) : M Env Response :=
  try_except
    (match files_file request with
     | None => ret (body_error "No file provided", 400)
     | Some file =>
         let target_language := default "en" (form request !! "target_language") in
         let source_language := form request !! "source_language" in
         if String.eqb (filename file) "" then
           ret (body_error "No file selected", 400)
         else
           let file_content := file_bytes file in
           let filename := filename file in
           let text_content := extract_text_from_file file_content filename in
           if Py.startswith "Error" text_content
              || Py.startswith "Unsupported" text_content
              || Py.contains "detected" text_content
           then ret (body_error text_content, 400)
           else
             let! detected_lang :=
               detect_language (Py.take 1000 text_content) in
             let actual_source_lang :=
               match source_language with
               | Some s =>
                   if negb (String.eqb s "") && negb (String.eqb s "auto")
                   then s else detected_lang
               | None => detected_lang
               end in
             let! translated_content :=
               translate_file_content text_content target_language
                 (Some actual_source_lang) in
             ret (body_file
                    {| original_filename := filename;
                       file_size := length file_content;
                       file_type := Py.lower (splitext_ext filename);
                       detected_language := detected_lang;
                       source_language := actual_source_lang;
                       target_language := target_language;
                       original_content :=
                         if 500 <? Py.len text_content
                         then Py.take 500 text_content +:+ "..."
                         else text_content;
                       translated_content := translated_content;
                       char_count := Py.len text_content;
                       translated_char_count := Py.len translated_content |},
                  200)
     end)
    (fun e =>
       ret (body_error ("File translation failed: " +:+ exn_str e), 500)).

End Handlers.


(** ** Chunking, as the specification words it

    Paragraphs are gathered greedily into groups: a paragraph joins the
    open group while the group's text, the paragraph and its blank line
    stay within the limit; otherwise the group is closed and the paragraph
    opens the next one. *)

(** The text of a group: every paragraph followed by its blank line. *)
Fixpoint render (group : list string) : string :=
  match group with
  | [] => EmptyString
  | p :: rest => p +:+ Py.nlnl +:+ render rest
  end.

Fixpoint group_go (cur : list string) (paragraphs : list string)
    : list (list string) :=
  match paragraphs with
  | [] => [cur]
  | p :: rest =>
      if Py.len (render cur +:+ p +:+ Py.nlnl) <=? max_chunk_size
      then group_go (cur ++ [p])%list rest
      else cur :: group_go [p] rest
  end.

Definition group_paragraphs (paragraphs : list string) : list (list string) :=
  group_go [] paragraphs.

(** What is sent for a group: its text without surrounding white space. *)
Definition chunk_text (group : list string) : string := Py.strip (render group).

(** The chunks to translate: the groups whose text is not blank. *)
Definition chunk_texts (groups : list (list string)) : list string :=
  List.filter (fun c => negb (String.eqb c "")) (map chunk_text groups).

(** A group was closed only because the next paragraph did not fit. *)
Fixpoint greedy (groups : list (list string)) : Prop :=
  match groups with
  | g1 :: ((g2 :: _) as rest) =>
      (exists p g2', g2 = p :: g2'
         /\ max_chunk_size < Py.len (render g1 +:+ p +:+ Py.nlnl))
      /\ greedy rest
  | _ => True
  end.

(** A group fits the limit or is a single paragraph. *)
Definition fits_or_single (g : list string) : Prop :=
  Py.len (render g) <= max_chunk_size \/ exists p, g = [p].

Section ChunkSpec.
Context {Env : Type} `{Ext : External Env}.

(** Each chunk is translated by a call of its own, in order. *)
Fixpoint translate_each (target_language : string)
    (source_language : option string) (chunks : list string)
    (translated : list string) : M Env (list string) :=
  match chunks with
  | [] => ret translated
  | c :: rest =>
      let! t := translate_text c target_language source_language in
      translate_each target_language source_language rest
        (translated ++ [t])%list
  end.

Definition translate_chunked (text target_language : string)
    (source_language : option string) : M Env string :=
  let! translated :=
    translate_each target_language source_language
      (chunk_texts (group_paragraphs (Py.split Py.nlnl text))) [] in
  ret (Py.join Py.nlnl translated).

End ChunkSpec.

(** The notes of a text with idioms: the idiom note, then the cultural
    note when the text has cultural references. *)
Definition idiom_notes (text : string) : list string :=
  idiom_note
  :: (if has_cultural_references (detect_linguistic_complexity text)
      then [cultural_note] else []).

(** [text] begins with one of the refusal phrases. *)
Definition is_refusal (text : string) : bool :=
  Py.startswith "I cannot" text || Py.startswith "Sorry" text.

(** ** A concrete outside world

    Services simple enough to run, used to evaluate the handlers on
    examples: an engine that tags the text with the target language while
    it is up and times out when it is down, a detector that answers
    English, an LLM endpoint that replays a fixed response, codecs that
    agree with Python on ASCII content, a stand-in for the base64 decoder
    that hands the characters over as bytes, and a speech model that
    returns a fixed transcript or fails. *)

Record SampleEnv := {
  engine_up : bool;
  llm_response : PyResult HttpResponse;
  whisper_up : bool
}.

Definition timed_out : Exn :=
  {| exn_str := "timed out"; is_connection_error := false |}.

Definition is_ascii_byte (b : Byte.byte) : bool :=
  nat_of_ascii (ascii_of_byte b) <? 128.

#[local] Instance sample_external : External SampleEnv := {|
  MODEL_NAME := "phi";
  langdetect_detect := fun _ e => (Returned "en", e);
  translator_translate := fun text dest _ e =>
    if engine_up e then (Returned ("[" +:+ dest +:+ "] " +:+ text), e)
    else (Raised timed_out, e);
  requests_post := fun _ _ _ e => (llm_response e, e);
  requests_get := fun _ _ e => (llm_response e, e);
  localized_reply := fun kind _ message => english_reply kind message;
  decode_utf8 := fun b =>
    if forallb is_ascii_byte b then Some (decode_latin1 b) else None;
  decode_utf8_ignore := fun b =>
    Returned (decode_latin1 (List.filter is_ascii_byte b));
  chardet_encoding := fun _ => Returned (Some "ISO-8859-1");
  decode_with := fun _ b => Returned (decode_latin1 b);
  WHISPER_AVAILABLE := true;
  Num := nat;
  num_zero := 0;
  b64decode := fun s => Returned (list_byte_of_string s);
  mkstemp_name := fun _ _ => Returned "/tmp/tmpk3a9.wav";
  write_result := fun _ _ _ => Returned tt;
  whisper_transcribe := fun _ _ e files =>
    if whisper_up e
    then (Returned {| tr_text := Some " hello there ";
                      tr_language := Some "en";
                      tr_avg_logprob := None |}, e, files)
    else (Raised timed_out, e, files)
|}.

Definition ok_response (reply : string) : HttpResponse :=
  {| status_code := 200; json := Some {[ "response" := reply ]}; text := "" |}.

Definition sample_world (up : bool) (llm : PyResult HttpResponse)
    : World SampleEnv :=
  {| env := {| engine_up := up; llm_response := llm; whisper_up := up |};
     fs := ∅; log := [] |}.

(** Everything works; the LLM answers with a refusal. *)
Definition world_up : World SampleEnv :=
  sample_world true (Returned (ok_response "I cannot help with that")).

(** Nothing answers. *)
Definition world_down : World SampleEnv :=
  sample_world false (Raised timed_out).


(** A plain text file whose body says that nothing was detected. *)
Definition plain_report : FileStorage :=
  {| filename := "report.txt";
     file_bytes := list_byte_of_string "No issues were detected in the build." |}.

(** A long text of three paragraphs, and a long blank one. *)
Definition three_paragraphs : string :=
  Py.replicate 2500 "a" +:+ Py.nlnl +:+ Py.replicate 1000 "b" +:+ Py.nlnl
  +:+ Py.replicate 3000 "c".

Definition long_blank : string := Py.replicate 4001 " ".

(** ** Start-up: the choice of the model ([get_best_available_model]) *)

Definition preferred_models : list string :=
  ["llama3.1:70b"; "llama3.1:8b"; "llama3:70b"; "llama3:8b"; "llama3.1";
   "llama3"; "mistral:7b"; "mistral"; "phi3:14b"; "phi3:7b"; "phi:latest";
   "phi"].

(** The answer of [GET /api/tags]: its status and its body, [None] when
    [response.json()] raises; in the body, the value of the key [models],
    if present, is a list of JSON objects. *)
Record TagsResponse := {
  tags_status : nat;
  tags_json : option (option (list (gmap string string)))
}.

(** [[model['name'] for model in models]]; [None] stands for the
    [KeyError] of a model without a name. *)
Fixpoint model_names (models : list (gmap string string))
    : option (list string) :=
  match models with
  | [] => Some []
  | m :: rest =>
      match m !! "name" with
      | None => None
      | Some name =>
          match model_names rest with
          | None => None
          | Some names => Some (name :: names)
          end
      end
  end.

(** [probe] is the outcome of
    [requests.get("http://localhost:11434/api/tags", timeout=5)]. *)
Definition get_best_available_model (probe : PyResult TagsResponse) : string :=
  match probe with
  | Raised _ => "phi"
  | Returned models_response =>
      if tags_status models_response =? 200 then
        match tags_json models_response with
        | None => "phi"
        | Some body =>
            match model_names (default [] body) with
            | None => "phi"
            | Some names =>
                match List.find
                        (fun preferred => existsb (String.eqb preferred) names)
                        preferred_models with
                | Some preferred => preferred
                | None => "phi"
                end
            end
        end
      else "phi"
  end.

(** ** Translation requests in chat ([handle_translation_request]) *)

(** [s.split(sep, 1)] when [sep] occurs in [s]: what precedes and what
    follows its first occurrence; [None] when it does not occur. *)
Fixpoint partition (sep s : string) : option (string * string) :=
  if Py.startswith sep s then Some (EmptyString, Py.drop (String.length sep) s)
  else
    match s with
    | EmptyString => None
    | String c s' =>
        match partition sep s' with
        | Some (a, b) => Some (String c a, b)
        | None => None
        end
    end.

(** [s.replace(old, new)] for a non-empty [old]: the pieces between the
    occurrences of [old], taken from the left without overlap, joined by
    [new]. *)
Definition replace (old new s : string) : string :=
  Py.join new (Py.split old s).

Definition translation_help : string :=
  "I can help you translate text! Please specify what you'd like to translate and to which language. For example: 'Translate hello to Spanish' or 'Convert this text to French: [your text]'".

Definition translation_trouble : string :=
  "I'm having trouble with that translation request. Please try rephrasing it, like: 'Translate [text] to [language]'".

Definition words_to_remove : list string :=
  ["spanish"; "french"; "german"; "hindi"; "arabic"; "chinese"; "japanese";
   "korean"; "portuguese"; "russian"; "italian"; "english"].

(** [for word in words_to_remove:
       text_to_translate = text_to_translate.replace(word, '').strip()] *)
Fixpoint remove_words (words : list string) (text_to_translate : string)
    : string :=
  match words with
  | [] => text_to_translate
  | word :: rest =>
      remove_words rest (Py.strip (replace word "" text_to_translate))
  end.

(** The loop over [supported_languages.items()]: the first language whose
    lower-cased name or whose code occurs in the message; the target given
    by the caller when there is none. *)
Definition mentions (message_lower : string) (kv : string * string) : bool :=
  Py.contains (Py.lower (snd kv)) message_lower
  || Py.contains (fst kv) message_lower.

Definition choose_target (message_lower target_language : string) : string :=
  match List.find (mentions message_lower) supported_languages with
  | Some kv => fst kv
  | None => target_language
  end.

(** The text that is left to translate, from what follows ["translate"]. *)
Definition text_after_translate (after : string) : string :=
  let text_to_translate := Py.strip after in
  let text_to_translate :=
    replace " into " " " (replace " to " " " text_to_translate) in
  remove_words words_to_remove text_to_translate.

Section TranslationRequest.
Context {Env : Type} `{Ext : External Env}.

Definition handle_translation_request (message target_language : string)
    : M Env string :=
  try_except
    (let message_lower := Py.lower message in
     if Py.contains "translate" message_lower then
       match partition "translate" message with
       | Some (_, after) =>
           let target_language := choose_target message_lower target_language in
           let text_to_translate := text_after_translate after in
           if negb (String.eqb text_to_translate "") then
             let! translated :=
               translate_text text_to_translate target_language None in
             ret ("Translation: " +:+ translated)
           else ret translation_help
       | None => ret translation_help
       end
     else ret translation_help)
    (fun _ => ret translation_trouble).

End TranslationRequest.

(** ** The chat and translate endpoints *)

Record TranslateReply := {
  reply_translated_text : string;
  reply_source_language : string;
  reply_target_language : string
}.

Inductive TranslateBody :=
| translate_error (error : string)
| translate_ok (reply : TranslateReply).

Record ChatReply := {
  chat_response : string;
  chat_detected_language : string;
  chat_input_language : string;
  chat_output_language : string;
  chat_translation : option string;
  chat_message_processed : string
}.

Inductive ChatBody :=
| chat_error (error : string)
| chat_ok (reply : ChatReply)
| chat_failed (error response detected input_language output_language : string).

Definition chat_translation_words : list string :=
  ["translate"; "translation"; "convert to"; "in spanish"; "in french";
   "in german"; "in hindi"; "in arabic"; "in chinese"; "in japanese";
   "in korean"; "in portuguese"; "in russian"; "in italian"; "in telugu";
   "in tamil"; "in marathi"].

Section Endpoints.
Context {Env : Type} `{Ext : External Env}.

(** [request.get_json()] followed by the first use of [data]: a body that
    is no JSON object raises. *)
Definition get_json_object (request_json : option (gmap string string))
    : M Env (gmap string string) :=
  match request_json with
  | Some data => ret data
  | None => raise_msg "'NoneType' object has no attribute 'get'"
  end.

(** [POST /api/translate] *)
Definition translate (request_json : option (gmap string string))
    : M Env (TranslateBody * nat) :=
  try_except
    (let! data := get_json_object request_json in
     let text := default "" (data !! "text") in
     let target_language := default "en" (data !! "target_language") in
     let source_language := data !! "source_language" in
     if String.eqb text "" then ret (translate_error "Text is required", 400)
     else
       let! translated_text :=
         translate_text text target_language source_language in
       let! detected_lang :=
         match source_language with
         | None | Some EmptyString => detect_language text
         | Some s => ret s
         end in
       ret (translate_ok
              {| reply_translated_text := translated_text;
                 reply_source_language := detected_lang;
                 reply_target_language := target_language |}, 200))
    (fun _ => ret (translate_error "Translation failed", 500)).

(** The translation of the response into the output language: the
    contextual translation, then the plain one, then the response itself.
    The second component is the variable [translation], set only when the
    contextual translation went through. *)
Definition translate_response (response output_language : string)
    : M Env (string * option string) :=
  try_except
    (let! final_response :=
       enhanced_translate_with_context response output_language (Some "en") in
     ret (final_response, Some response))
    (fun _ =>
       try_except
         (let! final_response :=
            translate_text response output_language (Some "en") in
          ret (final_response, None))
         (fun _ => ret (response, None))).

(** What [/api/chat] does with a non-empty message: detection,
    normalisation to English, the reply, and its translation into the
    output language. *)
Definition chat_turn (message input_language output_language : string)
    : M Env (ChatBody * nat) :=
  let! detected_lang := detect_language message in
  let actual_input_lang :=
    if String.eqb input_language "auto" then detected_lang
    else input_language in
  let! message_for_processing :=
    if negb (String.eqb actual_input_lang "en") then
      try_except (translate_text message "en" (Some actual_input_lang))
                 (fun _ => ret message)
    else ret message in
  let is_translation_request :=
    Py.any_in chat_translation_words (Py.lower message_for_processing) in
  let! response :=
    if is_translation_request
    then handle_translation_request message_for_processing output_language
    else generate_response_with_ollama message_for_processing
           output_language in
  let! translated :=
    if negb (String.eqb output_language "en")
       && negb (String.eqb output_language "auto")
       && negb is_translation_request
    then translate_response response output_language
    else ret (response, None) in
  ret (chat_ok
         {| chat_response := fst translated;
            chat_detected_language := detected_lang;
            chat_input_language := actual_input_lang;
            chat_output_language := output_language;
            chat_translation :=
              if negb (String.eqb output_language "en")
                 && negb (String.eqb output_language "auto")
              then snd translated else None;
            chat_message_processed := message_for_processing |}, 200).

(** [POST /api/chat].  The handler of the source is one [try] block whose
    [except] clause builds its answer from the local variables
    [input_language] and [output_language].  These are bound after
    [request.get_json()] and the reading of [data]: an exception raised up
    to there makes the [except] clause itself raise ([UnboundLocalError]),
    and the exception leaves the handler. *)
Definition chat (request_json : option (gmap string string))
    : M Env (ChatBody * nat) :=
  let! data :=
    try_except (get_json_object request_json)
      (fun _ =>
         raise_msg
           "cannot access local variable 'input_language' where it is not associated with a value") in
  let message := default "" (data !! "message") in
  let input_language := default "auto" (data !! "input_language") in
  let output_language := default "en" (data !! "output_language") in
  try_except
    (if String.eqb message "" then ret (chat_error "Message is required", 400)
     else chat_turn message input_language output_language)
    (fun _ =>
       ret (chat_failed "Internal server error"
              "I'm sorry, I'm having technical difficulties. Please try again."
              "en" input_language output_language, 500)).

End Endpoints.

(** The notes [translate_text] appends: one for each flagged category. *)
Definition notes_of (text : string) : list string :=
  ((if has_idioms (detect_linguistic_complexity text)
    then [idiom_note] else [])
   ++ (if has_cultural_references (detect_linguistic_complexity text)
       then [cultural_note] else []))%list.

(** The payloads the two generation paths send. *)
Definition chat_payload {Env : Type} `{Ext : External Env} (message : string)
    : Payload :=
  {| model := MODEL_NAME;
     prompt := chat_prompt (classify_query (Py.lower message)) message;
     stream := false;
     options := {| temperature := "0.3"; max_tokens := 400;
                   top_p := "0.9"; num_predict := 400;
                   top_k := Some 40; repeat_penalty := Some "1.1";
                   stop := chat_stop |} |}.

Definition translation_payload {Env : Type} `{Ext : External Env}
    (prompt : string) : Payload :=
  {| model := MODEL_NAME; prompt := prompt; stream := false;
     options := {| temperature := "0.1"; max_tokens := 500;
                   top_p := "0.9"; num_predict := 500;
                   top_k := None; repeat_penalty := None;
                   stop := translation_stop |} |}.

(** The trimmed text of the key [response] of a JSON body. *)
Definition response_text (result : gmap string string) : string :=
  Py.strip (default "" (result !! "response")).

(** ** Events by kind *)

(** A call to the language detector or to the translation engine. *)
Definition is_translation_event (ev : Event) : bool :=
  match ev with
  | ev_detect _ | ev_translate _ _ _ => true
  | _ => false
  end.

(** A request to the LLM endpoint. *)
Definition is_llm_event (ev : Event) : bool :=
  match ev with
  | ev_post _ _ _ => true
  | _ => false
  end.

(** [m] only adds events that satisfy [allowed] to the log, and leaves the
    file system as it is. *)
Definition only_events {Env A} (allowed : Event -> bool) (m : M Env A)
    : Prop :=
  forall w : World Env,
    exists new,
      log (snd (m w)) = (new ++ log w)%list
      /\ forallb allowed new = true
      /\ fs (snd (m w)) = fs w.

(** [m] always returns: no exception leaves it. *)
Definition never_raises {Env A} (m : M Env A) : Prop :=
  forall w : World Env, exists a w', m w = (Returned a, w').

(** [m] always returns, with a value that satisfies [post]. *)
Definition returns_with {Env A} (post : A -> Prop) (m : M Env A) : Prop :=
  forall w : World Env, exists a w', m w = (Returned a, w') /\ post a.

(** The languages [handle_translation_request] can choose as target. *)
Definition reachable_targets : list string :=
  ["en"; "es"; "fr"; "de"; "hi"; "te"].

(** The placeholder texts of [extract_text_from_file]. *)
Definition pdf_placeholder : string :=
  "PDF file detected. Please convert to text format for translation.".

Definition word_placeholder : string :=
  "Word document detected. Please save as text file for translation.".

(** A small text file. *)
Definition plain_notes : FileStorage :=
  {| filename := "notes.txt";
     file_bytes := list_byte_of_string "good morning" |}.

(** ** A world whose disk is full

    The services of [sample_external], but every [temp_file.write]
    fails. *)
Definition disk_full : Exn :=
  {| exn_str := "No space left on device"; is_connection_error := false |}.

Definition disk_full_external : External SampleEnv := {|
  MODEL_NAME := "phi";
  langdetect_detect := fun _ e => (Returned "en", e);
  translator_translate := fun text dest _ e =>
    if engine_up e then (Returned ("[" +:+ dest +:+ "] " +:+ text), e)
    else (Raised timed_out, e);
  requests_post := fun _ _ _ e => (llm_response e, e);
  requests_get := fun _ _ e => (llm_response e, e);
  localized_reply := fun kind _ message => english_reply kind message;
  decode_utf8 := fun b =>
    if forallb is_ascii_byte b then Some (decode_latin1 b) else None;
  decode_utf8_ignore := fun b =>
    Returned (decode_latin1 (List.filter is_ascii_byte b));
  chardet_encoding := fun _ => Returned (Some "ISO-8859-1");
  decode_with := fun _ b => Returned (decode_latin1 b);
  WHISPER_AVAILABLE := true;
  Num := nat;
  num_zero := 0;
  b64decode := fun s => Returned (list_byte_of_string s);
  mkstemp_name := fun _ _ => Returned "/tmp/tmpk3a9.wav";
  write_result := fun _ _ _ => Raised disk_full;
  whisper_transcribe := fun _ _ e files => (Raised timed_out, e, files)
|}.

(** * Properties *)

(** ** Strings *)

Lemma append_cons (c : ascii) (s t : string) :
  String c s +:+ t = String c (s +:+ t).
Proof. reflexivity. Qed.

Lemma append_nil_l (s : string) : "" +:+ s = s.
Proof. reflexivity. Qed.

Lemma append_nil_r (s : string) : s +:+ "" = s.
Proof.
  induction s as [|c s IH]; [reflexivity |].
  now rewrite append_cons, IH.
Qed.

Lemma append_assoc (a b c : string) : (a +:+ b) +:+ c = a +:+ b +:+ c.
Proof.
  induction a as [|x a IH]; [reflexivity |].
  now rewrite !append_cons, IH.
Qed.

Lemma length_append (a b : string) :
  String.length (a +:+ b) = String.length a + String.length b.
Proof.
  induction a as [|x a IH]; [reflexivity |].
  rewrite append_cons. simpl. now rewrite IH.
Qed.

Lemma startswith_append (p s : string) : Py.startswith p (p +:+ s) = true.
Proof.
  induction p as [|c p IH]; [reflexivity |].
  rewrite append_cons. simpl. now rewrite Ascii.eqb_refl, IH.
Qed.

Lemma startswith_head (a c : ascii) (p s : string) :
  Py.startswith (String a p) (String c s) = true -> a = c.
Proof.
  cbn [Py.startswith]. intros H. apply andb_true_iff in H.
  destruct H as [H _]. now apply Ascii.eqb_eq.
Qed.

Lemma contains_here (needle hay : string) :
  Py.startswith needle hay = true -> Py.contains needle hay = true.
Proof. intros H. destruct hay; simpl; now rewrite H. Qed.

Lemma contains_append (needle a b : string) :
  Py.contains needle (a +:+ needle +:+ b) = true.
Proof.
  induction a as [|c a IH].
  - rewrite append_nil_l. apply contains_here, startswith_append.
  - rewrite append_cons. simpl. rewrite IH. apply orb_true_r.
Qed.

Lemma lower_append (a b : string) :
  Py.lower (a +:+ b) = Py.lower a +:+ Py.lower b.
Proof.
  induction a as [|c a IH]; [reflexivity |].
  rewrite append_cons. simpl. now rewrite IH, append_cons.
Qed.

Lemma any_in_intro (ws : list string) (w s : string) :
  In w ws -> Py.contains w s = true -> Py.any_in ws s = true.
Proof.
  intros Hin Hc. unfold Py.any_in. apply existsb_exists. now exists w.
Qed.

Lemma sum_in_count_present (ws : list string) (s : string) :
  Py.sum_in ws s = count_present ws s.
Proof.
  unfold count_present. induction ws as [|w ws IH]; simpl; [reflexivity |].
  rewrite IH. now destruct (Py.contains w s).
Qed.

(** ** Query classifier *)

(** C1: the classifier is the first-match evaluation of its seven rules in
    the fixed order translation, sdg_equality, help_info, greeting,
    language_culture, general_question, general: for every message the
    first rule whose condition holds gives the intent.  The three messages
    of the specification are classified as it says. *)
Theorem classify_query_first_match :
  map snd classifier_rules
    = [translation; sdg_equality; help_info; greeting; language_culture;
       general_question; general]
  /\ (forall m : string,
        first_match classifier_rules m = Some (classify_query m))
  /\ classify_query "translate hello to spanish" = translation
  /\ classify_query "hi" = greeting
  /\ classify_query "what is the difference between x and y?"
     = general_question.
Proof.
  split; [reflexivity |]. split.
  - intros m. unfold classify_query. cbn [first_match classifier_rules].
    destruct (Py.any_in translation_patterns m); [reflexivity |].
    destruct (Py.any_in sdg_words m); [reflexivity |].
    destruct (Py.any_in help_words m); [reflexivity |].
    destruct (Py.any_in greeting_words m && _); [reflexivity |].
    destruct (Py.any_in language_culture_words m); [reflexivity |].
    destruct (Py.any_in technology_words m); [reflexivity |].
    cbn [orb].
    destruct (Py.any_in question_words m || _); reflexivity.
  - repeat split; vm_compute; reflexivity.
Qed.

(** ** Linguistic analyzer *)

Lemma verdict_by_ltb (A : Type) (a b : nat) (x y z : A) :
  (if b <? a then x else if a <? b then y else z)
  = match strictly_greater a b with
    | first_wins => x
    | second_wins => y
    | tie => z
    end.
Proof.
  unfold strictly_greater.
  destruct (Nat.compare_spec a b) as [E | L | G].
  - subst. now rewrite Nat.ltb_irrefl.
  - destruct (Nat.ltb_spec b a); [lia |].
    destruct (Nat.ltb_spec a b); [reflexivity | lia].
  - destruct (Nat.ltb_spec b a); [reflexivity | lia].
Qed.

(** C7: the analyzer is a function defined on every string.  On the empty
    string it gives neutral formality, no idioms, no cultural references,
    neutral sentiment and simple grammar.  On every text the formality and
    the sentiment are decided by comparing the numbers of keywords of the
    two lists that occur in the lower-cased text: the strictly greater
    number wins and a tie gives neutral. *)
Theorem analyzer_total_defaults_and_counts :
  detect_linguistic_complexity ""
    = {| has_idioms := false; formality_level := neutral_formality;
         has_cultural_references := false; sentiment := neutral_sentiment;
         grammar_complexity := simple |}
  /\ forall text : string,
       formality_level (detect_linguistic_complexity text)
         = formality_of
             (strictly_greater
                (count_present formal_indicators (Py.lower text))
                (count_present informal_indicators (Py.lower text)))
       /\ sentiment (detect_linguistic_complexity text)
         = sentiment_of
             (strictly_greater
                (count_present positive_words (Py.lower text))
                (count_present negative_words (Py.lower text))).
Proof.
  split; [vm_compute; reflexivity |].
  intros text. cbn [detect_linguistic_complexity formality_level sentiment].
  unfold detect_formality_level, detect_sentiment_indicators.
  rewrite !verdict_by_ltb, !sum_in_count_present.
  split.
  - now destruct (strictly_greater _ _).
  - now destruct (strictly_greater _ _).
Qed.

(** ** Translation adapter *)

Section AdapterFacts.
Context {Env : Type} `{Ext : External Env}.

Lemma try_except_returned {A} (m : M Env A) (h : Exn -> M Env A) w a w' :
  m w = (Returned a, w') -> try_except m h w = (Returned a, w').
Proof. intros H. unfold try_except. now rewrite H. Qed.

Lemma detect_language_returns (text : string) (w : World Env) :
  exists l w', detect_language text w = (Returned l, w').
Proof.
  unfold detect_language, try_except, bind, call, ret.
  destruct (langdetect_detect text (env w)) as [[e | d] e']; eauto.
Qed.

Lemma resolve_source_returns (source : option string) (text : string)
    (w : World Env) :
  exists l w', resolve_source source text w = (Returned l, w').
Proof.
  destruct source as [s |]; simpl.
  - unfold ret. eauto.
  - apply detect_language_returns.
Qed.

(** [translate_text] catches whatever is raised: it always returns. *)
Lemma translate_text_returns (text target : string)
    (source : option string) (w : World Env) :
  exists s w', translate_text text target source w = (Returned s, w').
Proof.
  unfold translate_text, try_except.
  destruct (bind _ _ w) as [[e | s] w'] eqn:E; unfold ret; eauto.
Qed.

End AdapterFacts.

(** C2: with the source language given and equal to the target language,
    [translate_text] returns the text as it is and leaves the world, and
    with it the log of external calls, untouched: no call is made to the
    translation engine (nor to the detector). *)
Theorem translate_text_same_language
    {Env : Type} `{Ext : External Env}
    (text L : string) (w : World Env) :
  translate_text text L (Some L) w = (Returned text, w).
Proof.
  unfold translate_text, try_except, bind, resolve_source, ret.
  now rewrite String.eqb_refl.
Qed.

Lemma strip_empty_guard (text : string) :
  Py.strip text <> "" ->
  String.eqb text "" || String.eqb (Py.strip text) "" = false.
Proof.
  intros H. apply orb_false_iff. split; apply String.eqb_neq.
  - intros ->. now apply H.
  - exact H.
Qed.

(** C3, as amended: for every text of at most 4000 characters that is not
    blank (not empty and not made of white space only), the file path
    [translate_file_content] gives what [translate_text] gives on the same
    text, target and source, and changes the world alike. *)
Theorem translate_file_content_small
    {Env : Type} `{Ext : External Env}
    (text target : string) (source : option string) (w : World Env) :
  Py.len text <= max_chunk_size ->
  Py.strip text <> "" ->
  translate_file_content text target source w
  = translate_text text target source w.
Proof.
  intros Hlen Hstrip.
  destruct (translate_text_returns text target source w) as (s & w' & E).
  rewrite E. apply try_except_returned.
  rewrite (strip_empty_guard _ Hstrip).
  apply Nat.leb_le in Hlen. now rewrite Hlen.
Qed.

Lemma translate_file_content_small_witness :
  Py.len "hello" <= max_chunk_size
  /\ Py.strip "hello" <> ""
  /\ translate_file_content "hello" "es" (Some "en") world_up
     = translate_text "hello" "es" (Some "en") world_up.
Proof.
  assert (H1 : Py.len "hello" <= max_chunk_size)
    by (apply Nat.leb_le; vm_compute; reflexivity).
  assert (H2 : Py.strip "hello" <> "") by (vm_compute; discriminate).
  split; [exact H1 |]. split; [exact H2 |].
  exact (translate_file_content_small "hello" "es" (Some "en") world_up H1 H2).
Defined.

(** C3 as stated fails on the empty text: the file path answers with its
    empty-file message, the plain path returns the empty text. *)
Lemma translate_file_content_empty_differs :
  Py.len "" <= max_chunk_size
  /\ fst (translate_file_content "" "en" (Some "en") world_up)
     = Returned "File appears to be empty or unreadable."
  /\ fst (translate_text "" "en" (Some "en") world_up) = Returned ""
  /\ translate_file_content "" "en" (Some "en") world_up
     <> translate_text "" "en" (Some "en") world_up.
Proof.
  split; [apply Nat.leb_le; vm_compute; reflexivity |].
  split; [vm_compute; reflexivity |].
  split; [vm_compute; reflexivity |].
  intros H. apply (f_equal fst) in H. vm_compute in H. discriminate H.
Qed.

(** ** Idiom notes *)

Lemma idiom_patterns_lower (idiom : string) :
  In idiom idiom_patterns -> Py.lower idiom = idiom.
Proof.
  unfold idiom_patterns. simpl.
  intros H. repeat (destruct H as [<- | H]; [vm_compute; reflexivity |]).
  destruct H.
Qed.

Lemma has_idioms_of_substring (text idiom a b : string) :
  In idiom idiom_patterns -> text = a +:+ idiom +:+ b ->
  has_idioms (detect_linguistic_complexity text) = true.
Proof.
  intros Hin ->. cbn [detect_linguistic_complexity has_idioms].
  apply any_in_intro with (w := idiom); [exact Hin |].
  rewrite !lower_append, (idiom_patterns_lower _ Hin).
  apply contains_append.
Qed.

(** C5, as amended: a text that contains a listed idiom phrase has
    [has_idioms] set.  When [translate_text] is called on it with a source
    language (given or detected) that differs from the target, the engine
    is called once; if the engine returns a translation, the result is
    that translation, a blank line, and one trailing line that holds the
    notes joined by single spaces, the idiom note first; if the engine
    raises, the result is the failure message and carries no note of its
    own. *)
Theorem idiom_note_appended
    {Env : Type} `{Ext : External Env}
    (text idiom a b target src : string) (source : option string)
    (w w1 : World Env) :
  In idiom idiom_patterns ->
  text = a +:+ idiom +:+ b ->
  resolve_source source text w = (Returned src, w1) ->
  src <> target ->
  has_idioms (detect_linguistic_complexity text) = true
  /\ Py.contains Py.nl (Py.join " " (idiom_notes text)) = false
  /\ translate_text text target source w
     = let '(r, e2) := translator_translate text target src (env w1) in
       (Returned
          match r with
          | Returned translated =>
              translated +:+ Py.nlnl +:+ Py.join " " (idiom_notes text)
          | Raised e => "Translation failed: " +:+ exn_str e
          end,
        {| env := e2; fs := fs w1;
           log := ev_translate text target src :: log w1 |}).
Proof.
  intros Hin Htext Hsrc Hne.
  pose proof (has_idioms_of_substring _ _ _ _ Hin Htext) as Hid.
  split; [exact Hid |]. split.
  - unfold idiom_notes.
    destruct (has_cultural_references _); vm_compute; reflexivity.
  - unfold translate_text, try_except, bind. rewrite Hsrc.
    apply String.eqb_neq in Hne. rewrite Hne, Hid. cbn [orb].
    unfold call, idiom_notes.
    destruct (translator_translate text target src (env w1)) as [[e | t] e2];
      [reflexivity |].
    destruct (has_cultural_references _); reflexivity.
Qed.

Lemma idiom_note_appended_witness :
  fst (translate_text "it is a piece of cake" "es" (Some "en") world_up)
  = Returned ("[es] it is a piece of cake" +:+ Py.nlnl +:+ idiom_note).
Proof.
  pose proof (idiom_note_appended "it is a piece of cake" "piece of cake"
                "it is a " "" "es" "en" (Some "en") world_up world_up) as H.
  destruct H as (_ & _ & H).
  - vm_compute. tauto.
  - reflexivity.
  - reflexivity.
  - discriminate.
  - rewrite H. vm_compute. reflexivity.
Defined.

(** C5 as stated fails when the engine raises: the text holds an idiom,
    the languages differ, and the result is the failure message, in which
    the idiom note does not occur. *)
Lemma idiom_note_missing_when_engine_fails :
  Py.contains "piece of cake" "it is a piece of cake" = true
  /\ has_idioms (detect_linguistic_complexity "it is a piece of cake") = true
  /\ fst (translate_text "it is a piece of cake" "es" (Some "en") world_down)
     = Returned "Translation failed: timed out"
  /\ Py.contains idiom_note "Translation failed: timed out" = false.
Proof. repeat split; vm_compute; reflexivity. Qed.

(** ** Health endpoint *)

(** C9: [/api/health] returns status 200 in every world, with the body
    [status: healthy], the nineteen supported language codes, and
    [ollama_connected] true exactly when the probe returned with status
    200: false when the probe raised (connection failure, timeout) and
    false when it came back with another status. *)
Theorem health_always_200
    {Env : Type} `{Ext : External Env} (w : World Env) :
  let url := "http://localhost:11434/api/version" in
  let '(probe, e') := requests_get url 5 (env w) in
  health w
  = (Returned
       (body_health "healthy"
          match probe with
          | Raised _ => false
          | Returned r => status_code r =? 200
          end
          ["en"; "es"; "fr"; "de"; "hi"; "te"; "mr"; "kn"; "gu"; "ta"; "ml";
           "pa"; "ar"; "zh"; "ja"; "ko"; "pt"; "ru"; "it"],
        200),
     {| env := e'; fs := fs w; log := ev_get url 5 :: log w |}).
Proof.
  unfold health, bind, try_except, call, ret.
  destruct (requests_get _ 5 (env w)) as [[e | r] e']; reflexivity.
Qed.

(** ** LLM adapter: refusals *)

Section LlmFacts.
Context {Env : Type} `{Ext : External Env}.

(** The translation-assist path rejects a refusal: it returns [None]. *)
Lemma get_ai_translation_rejects_refusal
    (prompt : string) (w : World Env) (r : HttpResponse) (e' : Env)
    (result : gmap string string) (payload : Payload) :
  requests_post OLLAMA_URL payload 20 (env w) = (Returned r, e') ->
  payload
  = {| model := MODEL_NAME; prompt := prompt; stream := false;
       options := {| temperature := "0.1"; max_tokens := 500;
                     top_p := "0.9"; num_predict := 500;
                     top_k := None; repeat_penalty := None;
                     stop := translation_stop |} |} ->
  json r = Some result ->
  is_refusal (Py.strip (default "" (result !! "response"))) = true ->
  fst (get_ai_translation prompt w) = Returned None.
Proof.
  intros Hpost -> Hjson Href.
  unfold get_ai_translation, try_except, bind, call. rewrite Hpost.
  destruct (status_code r =? 200); [| reflexivity].
  unfold response_json. rewrite Hjson. unfold ret at 1.
  unfold is_refusal in Href.
  destruct (Py.startswith "I cannot" _).
  - rewrite andb_false_r. reflexivity.
  - cbn [orb] in Href. rewrite Href, andb_false_r. reflexivity.
Qed.

Lemma refusal_not_disclaimer (g : string) :
  is_refusal g = true -> strip_disclaimers g = g.
Proof.
  unfold is_refusal, strip_disclaimers.
  destruct g as [| c g]; [discriminate |].
  intros H. apply orb_true_iff in H.
  destruct H as [H | H]; apply startswith_head in H; subst c; reflexivity.
Qed.

(** The chat path has no such check: a refusal of more than ten
    characters that the endpoint returns with status 200 is handed to
    the caller as it is. *)
Lemma generate_response_keeps_refusal
    (message language : string) (w : World Env) (r : HttpResponse)
    (e' : Env) (result : gmap string string) (payload : Payload) :
  requests_post OLLAMA_URL payload 30 (env w) = (Returned r, e') ->
  payload
  = {| model := MODEL_NAME;
       prompt := chat_prompt (classify_query (Py.lower message)) message;
       stream := false;
       options := {| temperature := "0.3"; max_tokens := 400;
                     top_p := "0.9"; num_predict := 400;
                     top_k := Some 40; repeat_penalty := Some "1.1";
                     stop := chat_stop |} |} ->
  status_code r = 200 ->
  json r = Some result ->
  is_refusal (Py.strip (default "" (result !! "response"))) = true ->
  10 < Py.len (Py.strip (default "" (result !! "response"))) ->
  fst (generate_response_with_ollama message language w)
  = Returned (Py.strip (default "" (result !! "response"))).
Proof.
  intros Hpost -> Hst Hjson Href Hlen.
  unfold generate_response_with_ollama, try_except, bind, call.
  rewrite Hpost, Hst. cbn [Nat.eqb].
  replace (200 =? 200) with true by reflexivity.
  unfold response_json. rewrite Hjson. unfold ret at 1.
  rewrite (refusal_not_disclaimer _ Href).
  apply Nat.ltb_lt in Hlen. rewrite Hlen.
  destruct (Py.strip _) eqn:E; [discriminate Href | reflexivity].
Qed.

End LlmFacts.

(** C6, the chat path at a refusal: the endpoint answers 200 with
    ["I cannot help with that"]; [generate_response_with_ollama] returns
    that text, not the fallback reply, while [get_ai_translation] on the
    same answer returns [None]. *)
Theorem chat_path_returns_refusal :
  is_refusal "I cannot help with that" = true
  /\ fst (generate_response_with_ollama "tell me a joke" "en" world_up)
     = Returned "I cannot help with that"
  /\ get_fallback_response "tell me a joke" "en"
     = "Thank you for your message: 'tell me a joke'. I'm here to help with translations, answer questions, and provide information about equality and inclusion. Could you please let me know specifically how I can assist you today?"
  /\ fst (get_ai_translation "Translate: tell me a joke" world_up)
     = Returned None.
Proof. repeat split; vm_compute; reflexivity. Qed.

(** ** File translation endpoint *)

(** C10: when the text extracted from an uploaded file with a non-empty
    name begins with ["Error"] or ["Unsupported"], or contains
    ["detected"] anywhere, [/api/translate-file] answers 400 with that
    text as the error and leaves the world as it was: no language
    detection, no translation. *)
Theorem translate_file_rejects_marked_text
    {Env : Type} `{Ext : External Env}
    (request : FileRequest) (file : FileStorage) (w : World Env) :
  files_file request = Some file ->
  filename file <> "" ->
  let text_content :=
    extract_text_from_file (file_bytes file) (filename file) in
  Py.startswith "Error" text_content
  || Py.startswith "Unsupported" text_content
  || Py.contains "detected" text_content = true ->
  translate_file request w = (Returned (body_error text_content, 400), w).
Proof.
  intros Hfile Hname text_content Hmark.
  unfold translate_file, try_except. rewrite Hfile.
  apply String.eqb_neq in Hname. rewrite Hname.
  fold text_content. rewrite Hmark. reflexivity.
Qed.

Lemma translate_file_rejects_marked_text_witness :
  extract_text_from_file (file_bytes plain_report) (filename plain_report)
  = "No issues were detected in the build."
  /\ translate_file {| files_file := Some plain_report; form := ∅ |} world_up
     = (Returned (body_error "No issues were detected in the build.", 400),
        world_up).
Proof.
  split; [vm_compute; reflexivity |].
  etransitivity.
  - apply (translate_file_rejects_marked_text
             {| files_file := Some plain_report; form := ∅ |} plain_report
             world_up).
    + reflexivity.
    + discriminate.
    + vm_compute. reflexivity.
  - vm_compute. reflexivity.
Defined.

(** ** Speech-to-text endpoint *)

Section SpeechFacts.
Context {Env : Type} `{Ext : External Env}.

(** After the [finally] block the file is gone, whatever was there. *)
Lemma remove_if_exists_gone (p : path) (w : World Env) :
  exists r w',
    remove_if_exists p w = (r, w')
    /\ fs w' !! p = None
    /\ (log w' = log w \/ log w' = ev_unlink p :: log w).
Proof.
  unfold remove_if_exists, bind, os_path_exists, os_unlink, ret.
  destruct (fs w !! p) as [d |] eqn:E.
  - rewrite bool_decide_eq_true_2 by eauto. cbv beta. rewrite E.
    do 2 eexists. split; [reflexivity |]. cbn [fs log]. split.
    + apply lookup_delete_eq.
    + now right.
  - rewrite bool_decide_eq_false_2 by (intros [x Hx]; discriminate).
    do 2 eexists. split; [reflexivity |]. cbn [fs log]. split.
    + exact E.
    + now left.
Qed.

(** The [try] block logs the transcription call and nothing else. *)
Lemma transcribe_request_log (p : path) (language : string) (w : World Env) :
  exists lang,
    log (snd (transcribe_request p language w))
    = ev_transcribe p lang :: log w.
Proof.
  unfold transcribe_request, bind, transcribe, raise_msg, raise, ret.
  destruct (whisper_transcribe p _ (env w) (fs w)) as [[[e | t] e'] fs'];
    cbn [snd log]; [eauto |].
  destruct (tr_text t); cbn [snd log]; eauto.
Qed.

(** The [try ... finally] of the handler: the file is gone afterwards
    and no write was logged, whether the [try] block returned or
    raised. *)
Lemma try_finally_removes (p : path) (language : string) (w : World Env) :
  exists new,
    log (snd (try_finally (transcribe_request p language)
                          (remove_if_exists p) w))
    = (new ++ log w)%list
    /\ (forall q d, ~ In (ev_write q d) new)
    /\ fs (snd (try_finally (transcribe_request p language)
                            (remove_if_exists p) w)) !! p = None.
Proof.
  unfold try_finally.
  destruct (transcribe_request_log p language w) as (lang & Hlog).
  destruct (transcribe_request p language w) as [r w1]. cbn [snd] in Hlog.
  destruct (remove_if_exists_gone p w1) as (r2 & w2 & E & Hfs & Hl).
  rewrite E.
  assert (Hsnd : snd (match r2 with
                      | Returned _ => (r, w2)
                      | Raised e => (Raised e, w2)
                      end) = w2) by now destruct r2.
  rewrite Hsnd. destruct Hl as [Hl | Hl]; rewrite Hl, Hlog.
  - exists [ev_transcribe p lang]. split; [reflexivity |].
    split; [| exact Hfs]. intros q d [H | []]. discriminate H.
  - exists [ev_unlink p; ev_transcribe p lang]. split; [reflexivity |].
    split; [| exact Hfs]. intros q d [H | [H | []]]; discriminate H.
Qed.

End SpeechFacts.

Ltac no_write E :=
  injection E as <- <-; exists []; split; [reflexivity | intros ? ? []].

(** C8: whatever the request and the world, every file that
    [/api/speech-to-text] has written during the request is absent from
    the file system when the handler is done.  The speech model is
    arbitrary: it may return, raise, or touch the file system. *)
Theorem speech_to_text_removes_temp_file
    {Env : Type} `{Ext : External Env}
    (request_json : option (gmap string string)) (w : World Env) :
  exists new,
    log (snd (speech_to_text request_json w)) = (new ++ log w)%list
    /\ forall p data,
         In (ev_write p data) new ->
         fs (snd (speech_to_text request_json w)) !! p = None.
Proof.
  destruct (speech_to_text request_json w) as [r w'] eqn:E. cbn [snd].
  unfold speech_to_text, try_except, bind, ret, raise, raise_msg,
    named_temporary_file, file_write in E.
  destruct WHISPER_AVAILABLE; cbn [negb] in E; cbv beta iota in E;
    [| no_write E].
  destruct request_json as [data |]; cbv beta iota in E; [| no_write E].
  destruct (String.eqb (default "" (data !! "audio")) "");
    cbv beta iota in E; [no_write E |].
  destruct (b64decode (default "" (data !! "audio"))) as [e | audio_bytes];
    cbv beta iota in E; [no_write E |].
  destruct (mkstemp_name (env w) (fs w)) as [e | p];
    cbv beta iota in E; [no_write E |].
  cbn [env fs log] in E.
  destruct (write_result (env w) p audio_bytes) as [e | []];
    cbv beta iota in E.
  { injection E as <- <-. exists [ev_create p]. split; [reflexivity |].
    intros q d [H | []]. discriminate H. }
  match type of E with
  | context [try_finally _ _ ?w2] =>
      destruct (try_finally_removes p (default "en" (data !! "language")) w2)
        as (new & Hlog & Hnew & Hfs)
  end.
  cbn [log] in Hlog.
  destruct (try_finally _ _ _) as [[e | resp] w3]; cbn [snd] in *;
    injection E as <- <-;
    (exists (new ++ [ev_write p audio_bytes; ev_create p])%list;
     split; [rewrite Hlog, <- app_assoc; reflexivity |];
     intros q d Hin; apply in_app_or in Hin;
     destruct Hin as [Hin | [Hin | [Hin | []]]];
     [ destruct (Hnew _ _ Hin)
     | injection Hin as <- <-; exact Hfs
     | discriminate Hin ]).
Qed.

Lemma speech_to_text_removes_temp_file_witness :
  let request := Some ({[ "audio" := "QUJD" ]} : gmap string string) in
  let w' := snd (speech_to_text request world_down) in
  fst (speech_to_text request world_down)
  = Returned (body_error "Speech recognition failed", 500)
  /\ In (ev_write "/tmp/tmpk3a9.wav" (list_byte_of_string "QUJD")) (log w')
  /\ fs w' !! "/tmp/tmpk3a9.wav" = None.
Proof.
  intros request w'.
  destruct (speech_to_text_removes_temp_file request world_down)
    as (new & Hlog & Hgone).
  fold w' in Hlog, Hgone. cbn [world_down sample_world log] in Hlog.
  rewrite app_nil_r in Hlog.
  assert (Hin : In (ev_write "/tmp/tmpk3a9.wav" (list_byte_of_string "QUJD"))
                   (log w')).
  { vm_compute. right. right. left. reflexivity. }
  split; [vm_compute; reflexivity |]. split; [exact Hin |].
  apply (Hgone _ (list_byte_of_string "QUJD")). rewrite <- Hlog. exact Hin.
Defined.

(** ** Chunking of long texts *)

Lemma split_go_nonempty (sep : string) (s : string) (k : nat) :
  Py.split_go sep k s <> [].
Proof.
  revert k. induction s as [| c s IH]; intros k; simpl; [discriminate |].
  destruct k as [| k]; [| apply IH].
  destruct (Py.startswith sep (String c s)); [discriminate |].
  destruct (Py.split_go sep 0 s); discriminate.
Qed.

Lemma join_cons (sep p : string) (ps : list string) :
  ps <> [] -> Py.join sep (p :: ps) = p +:+ sep +:+ Py.join sep ps.
Proof. destruct ps; [congruence | reflexivity]. Qed.

Lemma join_cons_char (sep : string) (c : ascii) (p : string)
    (ps : list string) :
  Py.join sep (String c p :: ps) = String c (Py.join sep (p :: ps)).
Proof. destruct ps; reflexivity. Qed.

Lemma startswith_drop (p s : string) :
  Py.startswith p s = true -> s = p +:+ Py.drop (String.length p) s.
Proof.
  revert s. induction p as [| a p IH]; intros s H; [reflexivity |].
  destruct s as [| b s]; [discriminate |].
  cbn [Py.startswith] in H. apply andb_true_iff in H. destruct H as [Hab Hp].
  apply Ascii.eqb_eq in Hab. subst b.
  rewrite append_cons. cbn [String.length Py.drop]. f_equal. now apply IH.
Qed.

(** Joining the pieces of [split_go] with the separator gives back the
    text, from the position where the splitting starts. *)
Lemma join_split_go (sep : string) (s : string) (k : nat) :
  sep <> "" -> Py.join sep (Py.split_go sep k s) = Py.drop k s.
Proof.
  intros Hsep. revert k.
  induction s as [| c s IH]; intros k; [now destruct k |].
  destruct k as [| k]; cbn [Py.split_go Py.drop]; [| apply IH].
  destruct (Py.startswith sep (String c s)) eqn:E.
  - rewrite join_cons by apply split_go_nonempty.
    rewrite IH, append_nil_l.
    etransitivity; [| symmetry; apply (startswith_drop _ _ E)].
    destruct sep as [| a sep]; [congruence |].
    cbn [String.length Py.drop].
    replace (S (String.length sep) - 1) with (String.length sep) by lia.
    reflexivity.
  - pose proof (IH 0) as H0. pose proof (split_go_nonempty sep s 0) as Hne.
    destruct (Py.split_go sep 0 s) as [| p ps]; [congruence |].
    rewrite join_cons_char, H0. now destruct s.
Qed.

Lemma join_split (sep s : string) :
  sep <> "" -> Py.join sep (Py.split sep s) = s.
Proof.
  intros H. unfold Py.split. rewrite join_split_go by exact H. now destruct s.
Qed.

Lemma lstrip_length (s : string) :
  String.length (Py.lstrip s) <= String.length s.
Proof.
  induction s as [| c s IH]; simpl; [lia |].
  destruct (Py.isspace c); simpl; lia.
Qed.

Lemma rstrip_length (s : string) :
  String.length (Py.rstrip s) <= String.length s.
Proof.
  induction s as [| c s IH]; simpl; [lia |].
  destruct (Py.rstrip s); [destruct (Py.isspace c) |]; simpl in *; lia.
Qed.

Lemma strip_length (s : string) : Py.len (Py.strip s) <= Py.len s.
Proof.
  unfold Py.len, Py.strip.
  pose proof (rstrip_length (Py.lstrip s)). pose proof (lstrip_length s). lia.
Qed.

Lemma render_snoc (g : list string) (p : string) :
  render (g ++ [p]) = render g +:+ p +:+ Py.nlnl.
Proof.
  induction g as [| q g IH]; cbn [render app].
  - now rewrite append_nil_l, !append_nil_r.
  - now rewrite IH, !append_assoc.
Qed.

Lemma render_single (p : string) : render [p] = p +:+ Py.nlnl.
Proof. cbn [render]. now rewrite append_nil_r. Qed.

(** The groups are the paragraphs, in order, cut into runs. *)
Lemma concat_group_go (ps cur : list string) :
  concat (group_go cur ps) = (cur ++ ps)%list.
Proof.
  revert cur. induction ps as [| p ps IH]; intros cur; cbn [group_go].
  - cbn. now rewrite app_nil_r.
  - destruct (_ <=? _).
    + rewrite IH, <- app_assoc. reflexivity.
    + cbn [concat]. rewrite IH. reflexivity.
Qed.

Lemma group_go_head (ps cur : list string) :
  exists g rest, group_go cur ps = (cur ++ g)%list :: rest.
Proof.
  revert cur. induction ps as [| p ps IH]; intros cur; cbn [group_go].
  - exists [], []. now rewrite app_nil_r.
  - destruct (_ <=? _).
    + destruct (IH (cur ++ [p])%list) as (g & rest & E).
      exists (p :: g), rest. rewrite E, <- app_assoc. reflexivity.
    + exists [], (group_go [p] ps). now rewrite app_nil_r.
Qed.

Lemma greedy_group_go (ps cur : list string) : greedy (group_go cur ps).
Proof.
  revert cur. induction ps as [| p ps IH]; intros cur; cbn [group_go].
  - exact I.
  - destruct (_ <=? _) eqn:E; [apply IH |].
    pose proof (IH [p]) as Hrest.
    destruct (group_go_head ps [p]) as (g & rest & Eg).
    rewrite Eg in *. cbn [greedy]. split; [| exact Hrest].
    exists p, g. split; [reflexivity |].
    apply Nat.leb_gt in E. exact E.
Qed.

Lemma group_go_sizes (ps cur : list string) :
  fits_or_single cur -> Forall fits_or_single (group_go cur ps).
Proof.
  revert cur. induction ps as [| p ps IH]; intros cur Hcur; cbn [group_go].
  - now constructor.
  - destruct (_ <=? _) eqn:E.
    + apply IH. left. rewrite render_snoc. now apply Nat.leb_le.
    + constructor; [exact Hcur |]. apply IH. right. now exists p.
Qed.

Section ChunkFacts.
Context {Env : Type} `{Ext : External Env}.

Lemma bind_assoc {A B C} (m : M Env A) (f : A -> M Env B)
    (g : B -> M Env C) (w : World Env) :
  bind (bind m f) g w = bind m (fun a => bind (f a) g) w.
Proof. unfold bind. now destruct (m w) as [[e | a] w']. Qed.

Lemma bind_ext {A B} (m : M Env A) (f g : A -> M Env B) (w : World Env) :
  (forall a w', f a w' = g a w') -> bind m f w = bind m g w.
Proof. intros H. unfold bind. destruct (m w) as [[e | a] w']; auto. Qed.

Lemma translate_each_returns (target : string) (source : option string)
    (chunks acc : list string) (w : World Env) :
  exists out w',
    translate_each target source chunks acc w = (Returned out, w').
Proof.
  revert acc w. induction chunks as [| c chunks IH]; intros acc w.
  - cbn. unfold ret. eauto.
  - cbn [translate_each]. unfold bind.
    destruct (translate_text_returns c target source w) as (t & w1 & E).
    rewrite E. apply IH.
Qed.

(** Closing a chunk is translating it, when it is not blank. *)
Lemma flush_chunk_translate_each (target : string)
    (source : option string) (acc cur : list string) (w : World Env) :
  flush_chunk target source acc (render cur) w
  = translate_each target source (chunk_texts [cur]) acc w.
Proof.
  unfold flush_chunk, chunk_texts, chunk_text. cbn [map List.filter].
  destruct (negb _); reflexivity.
Qed.

(** The loop over the paragraphs, followed by the closing of the last
    chunk, translates the chunks of the greedy grouping one by one. *)
Lemma chunk_loop_refines (target : string) (source : option string)
    (ps : list string) :
  forall (cur acc : list string) (w : World Env),
    bind (chunk_loop target source ps acc (render cur))
         (fun st => flush_chunk target source (fst st) (snd st)) w
    = translate_each target source (chunk_texts (group_go cur ps)) acc w.
Proof.
  induction ps as [| p ps IH]; intros cur acc w.
  - cbn [chunk_loop group_go]. apply flush_chunk_translate_each.
  - cbn [chunk_loop group_go].
    destruct (_ <=? _).
    + rewrite <- render_snoc. apply IH.
    + rewrite bind_assoc.
      unfold chunk_texts. cbn [map List.filter]. fold (chunk_texts (group_go [p] ps)).
      unfold flush_chunk at 1, chunk_text.
      destruct (negb _).
      * cbn [app translate_each]. rewrite bind_assoc.
        apply bind_ext. intros t w1.
        rewrite <- render_single. apply IH.
      * cbn [app]. rewrite <- render_single. apply IH.
Qed.

End ChunkFacts.

(** C4, as amended: for every text of more than 4000 characters that is
    not blank, [translate_file_content] cuts the text at its blank lines
    into paragraphs (joining them with blank lines gives the text back),
    gathers the paragraphs greedily, in their order, into groups (the
    groups concatenated are the paragraphs; a group is closed only when
    the next paragraph would take it over the limit), sends each group's
    text, stripped and if it is not blank, to [translate_text] in a call
    of its own, in order, and joins the results with blank lines.  Every
    chunk sent has at most 4000 characters, unless it is a single
    paragraph that with its blank line exceeds 4000. *)
Theorem translate_file_content_chunks
    {Env : Type} `{Ext : External Env}
    (text target : string) (source : option string) (w : World Env) :
  max_chunk_size < Py.len text ->
  Py.strip text <> "" ->
  let paragraphs := Py.split Py.nlnl text in
  let groups := group_paragraphs paragraphs in
  Py.join Py.nlnl paragraphs = text
  /\ concat groups = paragraphs
  /\ greedy groups
  /\ Forall (fun g =>
               Py.len (chunk_text g) <= max_chunk_size
               \/ exists p, g = [p]
                    /\ max_chunk_size < Py.len (p +:+ Py.nlnl)) groups
  /\ translate_file_content text target source w
     = translate_chunked text target source w.
Proof.
  intros Hlen Hstrip paragraphs groups.
  split; [apply join_split; discriminate |].
  split; [apply concat_group_go |].
  split; [apply greedy_group_go |].
  split.
  - assert (H0 : fits_or_single []) by (left; cbn; lia).
    pose proof (group_go_sizes paragraphs [] H0) as Hall.
    fold (group_paragraphs paragraphs) in Hall. fold groups in Hall.
    revert Hall. apply List.Forall_impl.
    intros g [Hfit | (p & ->)].
    + left. unfold chunk_text. pose proof (strip_length (render g)). lia.
    + destruct (Nat.le_gt_cases (Py.len (render [p])) max_chunk_size) as [L | G].
      * left. unfold chunk_text. pose proof (strip_length (render [p])). lia.
      * right. exists p. split; [reflexivity |].
        now rewrite <- render_single.
  - unfold translate_chunked.
    fold paragraphs. fold groups.
    destruct (translate_each_returns target source (chunk_texts groups) [] w)
      as (out & w' & E).
    assert (Hrhs :
      bind (translate_each target source (chunk_texts groups) [])
           (fun translated => ret (Py.join Py.nlnl translated)) w
      = (Returned (Py.join Py.nlnl out), w')).
    { unfold bind. rewrite E. reflexivity. }
    rewrite Hrhs. unfold translate_file_content.
    apply try_except_returned.
    rewrite (strip_empty_guard _ Hstrip).
    apply Nat.leb_gt in Hlen. rewrite Hlen.
    fold paragraphs. cbv zeta.
    rewrite <- Hrhs, <- bind_assoc.
    unfold bind at 1 3.
    pose proof (chunk_loop_refines target source paragraphs [] [] w) as R.
    cbn [render] in R. fold (group_paragraphs paragraphs) in R.
    fold groups in R. rewrite R. reflexivity.
Qed.

Lemma translate_file_content_chunks_witness :
  max_chunk_size < Py.len three_paragraphs
  /\ Py.strip three_paragraphs <> ""
  /\ group_paragraphs (Py.split Py.nlnl three_paragraphs)
     = [[Py.replicate 2500 "a"; Py.replicate 1000 "b"];
        [Py.replicate 3000 "c"]]
  /\ fst (translate_file_content three_paragraphs "es" (Some "en") world_up)
     = Returned ("[es] " +:+ Py.replicate 2500 "a" +:+ Py.nlnl
                 +:+ Py.replicate 1000 "b" +:+ Py.nlnl
                 +:+ "[es] " +:+ Py.replicate 3000 "c").
Proof.
  assert (H1 : max_chunk_size < Py.len three_paragraphs)
    by (apply Nat.ltb_lt; vm_compute; reflexivity).
  assert (H2 : Py.strip three_paragraphs <> "")
    by (intros H; vm_compute in H; discriminate H).
  destruct (translate_file_content_chunks three_paragraphs "es" (Some "en")
              world_up H1 H2) as (_ & _ & _ & _ & E).
  split; [exact H1 |]. split; [exact H2 |].
  split; [vm_compute; reflexivity |].
  rewrite E. vm_compute. reflexivity.
Defined.

(** C4 as stated fails on a long blank text: 4001 spaces are answered with
    the empty-file message, where translating the chunks (there is none)
    and joining the results gives the empty text. *)
Lemma long_blank_text_not_chunked :
  max_chunk_size < Py.len long_blank
  /\ fst (translate_file_content long_blank "es" (Some "en") world_up)
     = Returned "File appears to be empty or unreadable."
  /\ fst (translate_chunked long_blank "es" (Some "en") world_up)
     = Returned ""
  /\ translate_file_content long_blank "es" (Some "en") world_up
     <> translate_chunked long_blank "es" (Some "en") world_up.
Proof.
  split; [apply Nat.ltb_lt; vm_compute; reflexivity |].
  split; [vm_compute; reflexivity |].
  split; [vm_compute; reflexivity |].
  intros H. apply (f_equal fst) in H. vm_compute in H. discriminate H.
Qed.


(** * Further properties of the backend *)

(** ** Model selection at start-up *)

Lemma find_first {A} (f : A -> bool) (l : list A) (x : A) :
  List.find f l = Some x ->
  exists before after,
    l = (before ++ x :: after)%list
    /\ f x = true
    /\ forall y, In y before -> f y = false.
Proof.
  induction l as [| a l IH]; cbn [List.find]; [discriminate |].
  destruct (f a) eqn:Fa.
  - intros [= ->]. exists [], l. repeat split; [exact Fa | intros y []].
  - intros H. destruct (IH H) as (before & after & -> & Fx & Hb).
    exists (a :: before), after. repeat split; [exact Fx |].
    intros y [<- | Hy]; [exact Fa | now apply Hb].
Qed.

Lemma existsb_eqb_In (x : string) (l : list string) :
  existsb (String.eqb x) l = true <-> In x l.
Proof.
  rewrite existsb_exists. split.
  - intros (y & Hy & E). apply String.eqb_eq in E. now subst.
  - intros H. exists x. split; [exact H | apply String.eqb_refl].
Qed.

(** X1: whatever the probe of the model list gives (an exception, any
    status, any body), the model chosen at start-up is one of the twelve
    preferred models. *)
Theorem get_best_available_model_preferred (probe : PyResult TagsResponse) :
  In (get_best_available_model probe) preferred_models.
Proof.
  assert (Hphi : In "phi" preferred_models)
    by (apply existsb_eqb_In; vm_compute; reflexivity).
  unfold get_best_available_model.
  destruct probe as [e | r]; [exact Hphi |].
  destruct (tags_status r =? 200); [| exact Hphi].
  destruct (tags_json r) as [body |]; [| exact Hphi].
  destruct (model_names _) as [names |]; [| exact Hphi].
  destruct (List.find _ preferred_models) as [m |] eqn:E; [| exact Hphi].
  apply find_some in E. tauto.
Qed.

(** X2: when the probe answers 200 with a list of named models, the model
    chosen is the first preferred model that is installed: it is among the
    installed names and no preferred model listed before it is; when no
    preferred model is installed, ["phi"] is chosen all the same. *)
Theorem get_best_available_model_first_installed
    (r : TagsResponse) (body : option (list (gmap string string)))
    (names : list string) :
  tags_status r = 200 ->
  tags_json r = Some body ->
  model_names (default [] body) = Some names ->
  (exists before after,
     preferred_models
     = (before ++ get_best_available_model (Returned r) :: after)%list
     /\ In (get_best_available_model (Returned r)) names
     /\ forall p, In p before -> ~ In p names)
  \/ (get_best_available_model (Returned r) = "phi"
      /\ forall p, In p preferred_models -> ~ In p names).
Proof.
  intros Hst Hjson Hnames. unfold get_best_available_model.
  rewrite Hst, Hjson, Hnames. cbn [Nat.eqb].
  replace (200 =? 200) with true by reflexivity.
  destruct (List.find _ preferred_models) as [m |] eqn:E.
  - left. destruct (find_first _ _ _ E) as (before & after & Hl & Hm & Hb).
    exists before, after. split; [exact Hl |]. split.
    + now apply existsb_eqb_In.
    + intros p Hp Hin. apply existsb_eqb_In in Hin.
      rewrite (Hb p Hp) in Hin. discriminate Hin.
  - right. split; [reflexivity |].
    intros p Hp Hin. apply existsb_eqb_In in Hin.
    pose proof (find_none _ _ E p Hp) as Hf. cbv beta in Hf.
    rewrite Hf in Hin. discriminate Hin.
Qed.

Lemma get_best_available_model_first_installed_witness :
  get_best_available_model
    (Returned {| tags_status := 200;
                 tags_json := Some (Some [ {[ "name" := "mistral" ]};
                                           {[ "name" := "llama3" ]} ]) |})
  = "llama3".
Proof.
  pose proof (get_best_available_model_first_installed
                {| tags_status := 200;
                   tags_json := Some (Some [ {[ "name" := "mistral" ]};
                                             {[ "name" := "llama3" ]} ]) |}
                (Some [ {[ "name" := "mistral" ]}; {[ "name" := "llama3" ]} ])
                ["mistral"; "llama3"] eq_refl eq_refl) as H.
  destruct H as [_ | _]; vm_compute; reflexivity.
Defined.

(** ** Language detection *)

(** X3: [detect_language] never raises and always answers with a code of
    the supported-language table: a detected code outside the table, and
    a failing detector, both give ["en"]. *)
Theorem detect_language_supported
    {Env : Type} `{Ext : External Env} (text : string) (w : World Env) :
  exists code,
    fst (detect_language text w) = Returned code
    /\ is_supported code = true
    /\ match fst (langdetect_detect text (env w)) with
       | Raised _ => code = "en"
       | Returned detected =>
           code = if is_supported detected then detected else "en"
       end.
Proof.
  unfold detect_language, try_except, bind, call, ret.
  destruct (langdetect_detect text (env w)) as [[e | detected] e'];
    cbn [fst].
  - exists "en". repeat split; reflexivity.
  - destruct (is_supported detected) eqn:S.
    + exists detected. repeat split; exact S.
    + exists "en". repeat split; reflexivity.
Qed.

(** ** Query classifier: the length gate of greetings *)

(** X4: a message is classified as a greeting only if it has at most five
    words, holds a greeting word, and holds no translation, equality or
    help keyword. *)
Theorem classify_query_greeting_gate (m : string) :
  classify_query m = greeting ->
  length (Py.split_ws m) <= 5
  /\ Py.any_in greeting_words m = true
  /\ Py.any_in translation_patterns m = false
  /\ Py.any_in sdg_words m = false
  /\ Py.any_in help_words m = false.
Proof.
  unfold classify_query.
  destruct (Py.any_in translation_patterns m); [discriminate |].
  destruct (Py.any_in sdg_words m); [discriminate |].
  destruct (Py.any_in help_words m); [discriminate |].
  destruct (Py.any_in greeting_words m).
  - destruct (Nat.leb_spec (length (Py.split_ws m)) 5) as [L | G].
    + intros _. repeat split. exact L.
    + cbn [andb].
      destruct (Py.any_in language_culture_words m); [discriminate |].
      destruct (Py.any_in technology_words m); [discriminate |].
      destruct (_ || _); discriminate.
  - cbn [andb].
    destruct (Py.any_in language_culture_words m); [discriminate |].
    destruct (Py.any_in technology_words m); [discriminate |].
    destruct (_ || _); discriminate.
Qed.

Lemma classify_query_greeting_gate_witness :
  classify_query "hey there" = greeting
  /\ length (Py.split_ws "hey there") <= 5.
Proof.
  assert (H : classify_query "hey there" = greeting)
    by (vm_compute; reflexivity).
  split; [exact H |].
  exact (proj1 (classify_query_greeting_gate "hey there" H)).
Defined.

(** ** What a computation may do to the world *)

Section Effects.
Context {Env : Type}.

Lemma only_ret {A} (allowed : Event -> bool) (a : A) :
  only_events (Env := Env) allowed (ret a).
Proof. intros w. exists []. repeat split. Qed.

Lemma only_raise {A} (allowed : Event -> bool) (e : Exn) :
  only_events (Env := Env) (A := A) allowed (raise e).
Proof. intros w. exists []. repeat split. Qed.

Lemma only_extend {A B} (allowed : Event -> bool) (m : M Env A)
    (k : PyResult A -> M Env B) :
  only_events allowed m ->
  (forall r, only_events allowed (k r)) ->
  only_events allowed (fun w => k (fst (m w)) (snd (m w))).
Proof.
  intros Hm Hk w. destruct (Hm w) as (n1 & L1 & A1 & F1).
  destruct (Hk (fst (m w)) (snd (m w))) as (n2 & L2 & A2 & F2).
  exists (n2 ++ n1)%list. split; [| split].
  - rewrite L2, L1, app_assoc. reflexivity.
  - rewrite forallb_app, A1, A2. reflexivity.
  - congruence.
Qed.

Lemma only_bind {A B} (allowed : Event -> bool) (m : M Env A)
    (k : A -> M Env B) :
  only_events allowed m ->
  (forall a, only_events allowed (k a)) ->
  only_events allowed (bind m k).
Proof.
  intros Hm Hk.
  pose proof (only_extend allowed m
                (fun r => match r with
                          | Returned a => k a
                          | Raised e => raise e
                          end) Hm) as H.
  assert (Hr : forall r : PyResult A,
            only_events allowed
              match r with Returned a => k a | Raised e => raise e end)
    by (intros [e | a]; [apply only_raise | apply Hk]).
  intros w. destruct (H Hr w) as (new & L & Al & F).
  exists new. unfold bind.
  destruct (m w) as [[e | a] w1]; cbn [fst snd] in *; auto.
Qed.

Lemma only_try_except {A} (allowed : Event -> bool) (m : M Env A)
    (h : Exn -> M Env A) :
  only_events allowed m ->
  (forall e, only_events allowed (h e)) ->
  only_events allowed (try_except m h).
Proof.
  intros Hm Hh.
  pose proof (only_extend allowed m
                (fun r => match r with
                          | Returned a => ret a
                          | Raised e => h e
                          end) Hm) as H.
  assert (Hr : forall r : PyResult A,
            only_events allowed
              match r with Returned a => ret a | Raised e => h e end)
    by (intros [e | a]; [apply Hh | apply only_ret]).
  intros w. destruct (H Hr w) as (new & L & Al & F).
  exists new. unfold try_except.
  destruct (m w) as [[e | a] w1]; cbn [fst snd] in *; auto.
Qed.

Lemma only_call {A} (allowed : Event -> bool) (ev : Event)
    (f : Env -> PyResult A * Env) :
  allowed ev = true -> only_events allowed (call ev f).
Proof.
  intros Hev w. exists [ev]. unfold call.
  destruct (f (env w)) as [r e']. cbn. now rewrite Hev.
Qed.

Lemma never_try_except {A} (m : M Env A) (h : Exn -> M Env A) :
  (forall e, never_raises (h e)) -> never_raises (try_except m h).
Proof.
  intros Hh w. unfold try_except.
  destruct (m w) as [[e | a] w1]; [apply Hh | eauto].
Qed.

Lemma never_ret {A} (a : A) : never_raises (Env := Env) (ret a).
Proof. intros w. unfold ret. eauto. Qed.

Lemma never_bind {A B} (m : M Env A) (k : A -> M Env B) :
  never_raises m -> (forall a, never_raises (k a)) -> never_raises (bind m k).
Proof.
  intros Hm Hk w. unfold bind. destruct (Hm w) as (a & w1 & E).
  rewrite E. apply Hk.
Qed.

End Effects.

Section AdapterEffects.
Context {Env : Type} `{Ext : External Env}.

Lemma detect_language_never (text : string) :
  never_raises (detect_language text).
Proof. apply never_try_except. intros e. apply never_ret. Qed.

Lemma translate_text_never (text target : string) (source : option string) :
  never_raises (translate_text text target source).
Proof. apply never_try_except. intros e. apply never_ret. Qed.

Lemma detect_language_only (text : string) :
  only_events is_translation_event (detect_language text).
Proof.
  apply only_try_except.
  - apply only_bind; [now apply only_call | intros a; apply only_ret].
  - intros e. apply only_ret.
Qed.

Lemma translate_text_only (text target : string) (source : option string) :
  only_events is_translation_event (translate_text text target source).
Proof.
  apply only_try_except; [| intros e; apply only_ret].
  apply only_bind.
  - destruct source; [apply only_ret | apply detect_language_only].
  - intros src. destruct (String.eqb src target); [apply only_ret |].
    cbv zeta. destruct (_ || _).
    + apply only_bind; [now apply only_call |].
      intros t. destruct (_ ++ _)%list; apply only_ret.
    + now apply only_call.
Qed.

Lemma flush_chunk_only (target : string) (source : option string)
    (acc : list string) (chunk : string) :
  only_events is_translation_event (flush_chunk target source acc chunk).
Proof.
  unfold flush_chunk. destruct (negb _); [| apply only_ret].
  apply only_bind; [apply translate_text_only | intros t; apply only_ret].
Qed.

Lemma chunk_loop_only (target : string) (source : option string)
    (ps : list string) :
  forall (acc : list string) (chunk : string),
    only_events is_translation_event
      (chunk_loop target source ps acc chunk).
Proof.
  induction ps as [| p ps IH]; intros acc chunk; cbn [chunk_loop].
  - apply only_ret.
  - destruct (_ <=? _); [apply IH |].
    apply only_bind; [apply flush_chunk_only | intros a; apply IH].
Qed.

Lemma translate_file_content_only (text target : string)
    (source : option string) :
  only_events is_translation_event
    (translate_file_content text target source).
Proof.
  apply only_try_except; [| intros e; apply only_ret].
  destruct (_ || _); [apply only_ret |].
  destruct (_ <=? _); [apply translate_text_only |].
  cbv zeta. apply only_bind; [apply chunk_loop_only |].
  intros st. apply only_bind; [apply flush_chunk_only |].
  intros tp. apply only_ret.
Qed.

Lemma translate_file_content_never (text target : string)
    (source : option string) :
  never_raises (translate_file_content text target source).
Proof. apply never_try_except. intros e. apply never_ret. Qed.

End AdapterEffects.

(** ** Translation adapter *)

Section AdapterShape.
Context {Env : Type} `{Ext : External Env}.

Lemma resolve_source_cases (source : option string) (text : string)
    (w : World Env) :
  exists src w1,
    resolve_source source text w = (Returned src, w1)
    /\ fs w1 = fs w
    /\ ((source = Some src /\ log w1 = log w)
        \/ (source = None /\ log w1 = ev_detect text :: log w)).
Proof.
  destruct source as [s |]; cbn [resolve_source].
  - exists s, w. unfold ret. auto.
  - unfold detect_language, try_except, bind, call, ret.
    destruct (langdetect_detect text (env w)) as [[e | d] e'];
      do 2 eexists; (split; [reflexivity |]); cbn [fs log]; auto.
Qed.

(** What [translate_text] does once the source language is known. *)
Lemma translate_text_resolved (text target : string)
    (source : option string) (w w1 : World Env) (src : string) :
  resolve_source source text w = (Returned src, w1) ->
  translate_text text target source w
  = if String.eqb src target then (Returned text, w1)
    else
      let '(r, e2) := translator_translate text target src (env w1) in
      (Returned
         match r with
         | Raised e => "Translation failed: " +:+ exn_str e
         | Returned translated =>
             match notes_of text with
             | [] => translated
             | notes => translated +:+ Py.nlnl +:+ Py.join " " notes
             end
         end,
       {| env := e2; fs := fs w1;
          log := ev_translate text target src :: log w1 |}).
Proof.
  intros Hsrc. unfold translate_text, try_except, bind. rewrite Hsrc.
  destruct (String.eqb src target); [reflexivity |].
  cbv zeta. unfold call, notes_of.
  destruct (has_idioms _); destruct (has_cultural_references _);
    cbn [orb]; cbv beta;
    destruct (translator_translate text target src (env w1)) as [[e | t] e2];
    reflexivity.
Qed.

End AdapterShape.

(** ** Translation adapter *)

(** X5: [translate_text] never raises, leaves the file system alone, and
    calls the outside at most twice: the detector once, only when no
    source language is given, and after it the engine at most once, with
    the text and the target as they were passed. *)
Theorem translate_text_call_budget
    {Env : Type} `{Ext : External Env}
    (text target : string) (source : option string) (w : World Env) :
  exists out w',
    translate_text text target source w = (Returned out, w')
    /\ fs w' = fs w
    /\ exists d t,
         log w' = (t ++ d ++ log w)%list
         /\ (d = [] \/ (source = None /\ d = [ev_detect text]))
         /\ (t = [] \/ exists src, t = [ev_translate text target src]).
Proof.
  destruct (resolve_source_cases source text w) as (src & w1 & Hsrc & Hfs & Hd).
  rewrite (translate_text_resolved _ _ _ _ _ _ Hsrc).
  assert (Hlog : exists d, log w1 = (d ++ log w)%list
                   /\ (d = [] \/ (source = None /\ d = [ev_detect text]))).
  { destruct Hd as [[_ Hl] | [Hn Hl]].
    - exists []. split; [exact Hl | now left].
    - exists [ev_detect text]. split; [exact Hl | now right]. }
  destruct Hlog as (d & Hl & Hdd).
  destruct (String.eqb src target).
  - do 2 eexists. split; [reflexivity |]. split; [exact Hfs |].
    exists d, []. split; [exact Hl |]. split; [exact Hdd | now left].
  - destruct (translator_translate text target src (env w1)) as [r e2].
    do 2 eexists. split; [reflexivity |]. cbn [fs log]. split; [exact Hfs |].
    exists d, [ev_translate text target src]. rewrite Hl.
    split; [reflexivity |]. split; [exact Hdd |]. right. now exists src.
Qed.

(** X6: when the languages differ and the engine returns a translation,
    the result of [translate_text] is that translation alone for a text
    without idioms and cultural references, and otherwise the
    translation, a blank line and the notes of the flagged categories:
    the idiom note, the cultural note, or both separated by one space. *)
Theorem translate_text_notes
    {Env : Type} `{Ext : External Env}
    (text target src translated : string) (source : option string)
    (w w1 : World Env) (e2 : Env) :
  resolve_source source text w = (Returned src, w1) ->
  src <> target ->
  translator_translate text target src (env w1) = (Returned translated, e2) ->
  fst (translate_text text target source w)
  = Returned
      match has_idioms (detect_linguistic_complexity text),
            has_cultural_references (detect_linguistic_complexity text) with
      | false, false => translated
      | true, false => translated +:+ Py.nlnl +:+ idiom_note
      | false, true => translated +:+ Py.nlnl +:+ cultural_note
      | true, true =>
          translated +:+ Py.nlnl +:+ idiom_note +:+ " " +:+ cultural_note
      end.
Proof.
  intros Hsrc Hne Htr.
  rewrite (translate_text_resolved _ _ _ _ _ _ Hsrc).
  apply String.eqb_neq in Hne. rewrite Hne, Htr. cbn [fst].
  unfold notes_of.
  destruct (has_idioms _); destruct (has_cultural_references _); reflexivity.
Qed.

Lemma translate_text_notes_witness :
  fst (translate_text "happy diwali" "es" (Some "en") world_up)
  = Returned ("[es] happy diwali" +:+ Py.nlnl +:+ cultural_note).
Proof.
  etransitivity.
  - apply (translate_text_notes "happy diwali" "es" "en" "[es] happy diwali"
             (Some "en") world_up world_up
             {| engine_up := true;
                llm_response := Returned (ok_response "I cannot help with that");
                whisper_up := true |}).
    + reflexivity.
    + discriminate.
    + reflexivity.
  - vm_compute. reflexivity.
Defined.

(** X7: a blank text (empty, or white space only), whatever its length,
    is answered by [translate_file_content] with the empty-file message;
    nothing is detected or translated and the world is unchanged. *)
Theorem translate_file_content_blank
    {Env : Type} `{Ext : External Env}
    (text target : string) (source : option string) (w : World Env) :
  Py.strip text = "" ->
  translate_file_content text target source w
  = (Returned "File appears to be empty or unreadable.", w).
Proof.
  intros H. unfold translate_file_content, try_except.
  rewrite H. cbn [String.eqb]. rewrite orb_true_r. reflexivity.
Qed.

Lemma translate_file_content_blank_witness :
  Py.strip long_blank = ""
  /\ translate_file_content long_blank "es" None world_up
     = (Returned "File appears to be empty or unreadable.", world_up).
Proof.
  assert (H : Py.strip long_blank = "") by (vm_compute; reflexivity).
  split; [exact H |].
  exact (translate_file_content_blank long_blank "es" None world_up H).
Defined.

(** X8: [translate_file_content] never raises, and all it does to the
    outside is calling the language detector and the translation engine:
    it sends nothing to the LLM endpoint and leaves the file system as it
    is. *)
Theorem translate_file_content_effects
    {Env : Type} `{Ext : External Env}
    (text target : string) (source : option string) :
  never_raises (translate_file_content text target source)
  /\ only_events is_translation_event
       (translate_file_content text target source).
Proof.
  split.
  - apply translate_file_content_never.
  - apply translate_file_content_only.
Qed.

(** ** LLM adapter *)

Section LlmShape.
Context {Env : Type} `{Ext : External Env}.

(** What [generate_response_with_ollama] does with the outcome of its one
    request. *)
Lemma generate_response_resolved (message language : string)
    (w : World Env) (probe : PyResult HttpResponse) (e' : Env) :
  requests_post OLLAMA_URL (chat_payload message) 30 (env w) = (probe, e') ->
  generate_response_with_ollama message language w
  = (Returned
       match probe with
       | Raised _ => get_fallback_response message language
       | Returned r =>
           if status_code r =? 200 then
             match json r with
             | None => get_fallback_response message language
             | Some result =>
                 if negb (String.eqb (response_text result) "")
                    && (10 <? Py.len (strip_disclaimers (response_text result)))
                 then strip_disclaimers (response_text result)
                 else get_fallback_response message language
             end
           else get_fallback_response message language
       end,
     {| env := e'; fs := fs w;
        log := ev_post OLLAMA_URL (chat_payload message) 30 :: log w |}).
Proof.
  intros Hpost.
  unfold generate_response_with_ollama, try_except, bind, call.
  fold (chat_payload message). rewrite Hpost.
  destruct probe as [e | r]; [reflexivity |].
  destruct (status_code r =? 200); [| reflexivity].
  unfold response_json. destruct (json r) as [result |]; [| reflexivity].
  unfold ret at 1. fold (response_text result).
  destruct (negb _); [| reflexivity].
  cbn [andb]. destruct (10 <? _); reflexivity.
Qed.

(** What [get_ai_translation] does with the outcome of its request. *)
Lemma get_ai_translation_resolved (prompt : string)
    (w : World Env) (probe : PyResult HttpResponse) (e' : Env) :
  requests_post OLLAMA_URL (translation_payload prompt) 20 (env w)
  = (probe, e') ->
  get_ai_translation prompt w
  = (Returned
       match probe with
       | Raised _ => None
       | Returned r =>
           if status_code r =? 200 then
             match json r with
             | None => None
             | Some result =>
                 if negb (String.eqb (response_text result) "")
                    && negb (is_refusal (response_text result))
                 then Some (response_text result) else None
             end
           else None
       end,
     {| env := e'; fs := fs w;
        log := ev_post OLLAMA_URL (translation_payload prompt) 20 :: log w |}).
Proof.
  intros Hpost.
  unfold get_ai_translation, try_except, bind, call.
  fold (translation_payload prompt). rewrite Hpost.
  destruct probe as [e | r]; [reflexivity |].
  destruct (status_code r =? 200); [| reflexivity].
  unfold response_json. destruct (json r) as [result |]; [| reflexivity].
  unfold ret at 1. fold (response_text result). unfold is_refusal.
  destruct (negb (String.eqb _ _));
    destruct (Py.startswith "I cannot" _);
    destruct (Py.startswith "Sorry" _); reflexivity.
Qed.

End LlmShape.

(** X9: [generate_response_with_ollama] never raises and sends exactly
    one request to the LLM endpoint.  When the request raises (connection
    failure, timeout), comes back with a status other than 200, or with a
    body that is no JSON or has no [response] key, the caller gets the
    canned fallback reply for the message and language. *)
Theorem generate_response_falls_back
    {Env : Type} `{Ext : External Env}
    (message language : string) (w : World Env) :
  exists out w',
    generate_response_with_ollama message language w = (Returned out, w')
    /\ log w' = ev_post OLLAMA_URL (chat_payload message) 30 :: log w
    /\ match fst (requests_post OLLAMA_URL (chat_payload message) 30 (env w))
       with
       | Raised _ => out = get_fallback_response message language
       | Returned r =>
           if status_code r =? 200 then
             match json r with
             | None => out = get_fallback_response message language
             | Some result =>
                 match result !! "response" with
                 | None => out = get_fallback_response message language
                 | Some _ => True
                 end
             end
           else out = get_fallback_response message language
       end.
Proof.
  destruct (requests_post OLLAMA_URL (chat_payload message) 30 (env w))
    as [probe e'] eqn:Hpost.
  rewrite (generate_response_resolved _ _ _ _ _ Hpost).
  do 2 eexists. split; [reflexivity |]. split; [reflexivity |]. cbn [fst].
  destruct probe as [e | r]; [reflexivity |].
  destruct (status_code r =? 200); [| reflexivity].
  destruct (json r) as [result |]; [| reflexivity].
  unfold response_text.
  destruct (result !! "response"); [exact I | reflexivity].
Qed.

(** X10: whatever the LLM endpoint answers, the text
    [generate_response_with_ollama] returns is the canned fallback reply
    or has more than ten characters. *)
Theorem generate_response_min_length
    {Env : Type} `{Ext : External Env}
    (message language : string) (w : World Env) :
  exists out,
    fst (generate_response_with_ollama message language w) = Returned out
    /\ (out = get_fallback_response message language \/ 10 < Py.len out).
Proof.
  destruct (requests_post OLLAMA_URL (chat_payload message) 30 (env w))
    as [probe e'] eqn:Hpost.
  rewrite (generate_response_resolved _ _ _ _ _ Hpost). cbn [fst].
  eexists. split; [reflexivity |].
  destruct probe as [e | r]; [now left |].
  destruct (status_code r =? 200); [| now left].
  destruct (json r) as [result |]; [| now left].
  destruct (negb _); [| now left]. cbn [andb].
  destruct (Nat.ltb_spec 10 (Py.len (strip_disclaimers (response_text result))));
    [now right | now left].
Qed.

(** X11: a text that [get_ai_translation] hands out is the trimmed
    [response] of a 200 answer, is not empty and does not begin with
    ["I cannot"] or ["Sorry"]. *)
Theorem get_ai_translation_accepts
    {Env : Type} `{Ext : External Env}
    (prompt : string) (w w' : World Env) (t : string) :
  get_ai_translation prompt w = (Returned (Some t), w') ->
  t <> ""
  /\ is_refusal t = false
  /\ exists r result e',
       requests_post OLLAMA_URL (translation_payload prompt) 20 (env w)
       = (Returned r, e')
       /\ status_code r = 200
       /\ json r = Some result
       /\ t = response_text result.
Proof.
  destruct (requests_post OLLAMA_URL (translation_payload prompt) 20 (env w))
    as [probe e'] eqn:Hpost.
  rewrite (get_ai_translation_resolved _ _ _ _ Hpost).
  destruct probe as [e | r]; [discriminate |].
  destruct (status_code r =? 200) eqn:Hst; [| discriminate].
  destruct (json r) as [result |] eqn:Hj; [| discriminate].
  destruct (String.eqb (response_text result) "") eqn:He; [discriminate |].
  destruct (is_refusal (response_text result)) eqn:Hr; [discriminate |].
  cbn [negb andb]. intros [= <- _].
  split; [now apply String.eqb_neq |]. split; [exact Hr |].
  exists r, result, e'. apply Nat.eqb_eq in Hst. auto.
Qed.

Lemma get_ai_translation_accepts_witness :
  get_ai_translation "Translate: good morning"
    (sample_world true (Returned (ok_response " Buenos dias ")))
  = (Returned (Some "Buenos dias"),
     {| env := {| engine_up := true;
                  llm_response := Returned (ok_response " Buenos dias ");
                  whisper_up := true |};
        fs := ∅;
        log := [ev_post OLLAMA_URL
                  (translation_payload "Translate: good morning") 20] |})
  /\ is_refusal "Buenos dias" = false.
Proof.
  assert (H : get_ai_translation "Translate: good morning"
                (sample_world true (Returned (ok_response " Buenos dias ")))
              = (Returned (Some "Buenos dias"),
                 {| env := {| engine_up := true;
                              llm_response :=
                                Returned (ok_response " Buenos dias ");
                              whisper_up := true |};
                    fs := ∅;
                    log := [ev_post OLLAMA_URL
                              (translation_payload "Translate: good morning")
                              20] |}))
    by (vm_compute; reflexivity).
  split; [exact H |].
  exact (proj1 (proj2 (get_ai_translation_accepts _ _ _ _ H))).
Defined.

Lemma contains_tail_false (needle : string) (c : ascii) (s : string) :
  Py.contains needle (String c s) = false -> Py.contains needle s = false.
Proof.
  cbn [Py.contains]. intros H. apply orb_false_iff in H. tauto.
Qed.

Lemma startswith_append_l (p s t : string) :
  Py.startswith p s = true -> Py.startswith p (s +:+ t) = true.
Proof.
  revert s. induction p as [| a p IH]; intros s H; [reflexivity |].
  destruct s as [| b s]; [discriminate |].
  rewrite append_cons. cbn [Py.startswith] in *.
  apply andb_true_iff in H. destruct H as [Hab Hp].
  now rewrite Hab, (IH _ Hp).
Qed.

(** Cutting a sentence that ends with its only period leaves nothing. *)
Lemma after_first_period_at_end (a : string) :
  Py.contains "." a = false -> Py.after_first "." (a +:+ ".") = "".
Proof.
  induction a as [| c a IH]; intros H; [reflexivity |].
  rewrite append_cons. cbn [Py.after_first].
  assert (Hc : Py.startswith "." (String c (a +:+ ".")) = false).
  { cbn [Py.contains] in H. apply orb_false_iff in H. destruct H as [H _].
    cbn [Py.startswith] in *. exact H. }
  rewrite Hc.
  pose proof (contains_append "." a "") as Ha.
  change (a +:+ "." +:+ "") with (a +:+ ".") in Ha. rewrite Ha.
  apply IH. exact (contains_tail_false _ _ _ H).
Qed.

Lemma strip_disclaimers_only_sentence (a : string) :
  Py.contains "." a = false ->
  Py.startswith "as a" (Py.lower a) = true ->
  strip_disclaimers (a +:+ ".") = "".
Proof.
  intros Hdot Has. unfold strip_disclaimers. cbv zeta.
  rewrite !(after_first_period_at_end _ Hdot).
  assert (Hl : Py.startswith "as a" (Py.lower (a +:+ ".")) = true)
    by (rewrite lower_append; now apply startswith_append_l).
  destruct (Py.startswith "as an ai" _).
  - reflexivity.
  - rewrite Hl, (after_first_period_at_end _ Hdot). reflexivity.
Qed.

(** X12: when the LLM answers with a disclaimer sentence and nothing
    else (a text that begins with ["as a"] or ["as an ai"] in any case
    and whose only period is its last character), nothing is left after
    the cleaning and the caller gets the fallback reply. *)
Theorem generate_response_disclaimer_only
    {Env : Type} `{Ext : External Env}
    (message language a : string) (w : World Env) (r : HttpResponse)
    (e' : Env) (result : gmap string string) :
  requests_post OLLAMA_URL (chat_payload message) 30 (env w)
  = (Returned r, e') ->
  status_code r = 200 ->
  json r = Some result ->
  response_text result = a +:+ "." ->
  Py.contains "." a = false ->
  Py.startswith "as a" (Py.lower a) = true ->
  fst (generate_response_with_ollama message language w)
  = Returned (get_fallback_response message language).
Proof.
  intros Hpost Hst Hj Ht Hdot Has.
  rewrite (generate_response_resolved _ _ _ _ _ Hpost). cbn [fst].
  rewrite Hst, Hj, Ht, (strip_disclaimers_only_sentence _ Hdot Has).
  replace (200 =? 200) with true by reflexivity.
  now rewrite andb_false_r.
Qed.

Lemma generate_response_disclaimer_only_witness :
  fst (generate_response_with_ollama "tell me a joke" "en"
         (sample_world true
            (Returned (ok_response "As an AI, I have no sense of humour."))))
  = Returned (get_fallback_response "tell me a joke" "en").
Proof.
  apply (generate_response_disclaimer_only "tell me a joke" "en"
           "As an AI, I have no sense of humour"
           (sample_world true
              (Returned (ok_response "As an AI, I have no sense of humour.")))
           (ok_response "As an AI, I have no sense of humour.")
           {| engine_up := true;
              llm_response :=
                Returned (ok_response "As an AI, I have no sense of humour.");
              whisper_up := true |}
           {[ "response" := "As an AI, I have no sense of humour." ]}).
  - reflexivity.
  - reflexivity.
  - reflexivity.
  - vm_compute. reflexivity.
  - vm_compute. reflexivity.
  - vm_compute. reflexivity.
Defined.

Section EnhancedFacts.
Context {Env : Type} `{Ext : External Env}.

Lemma get_ai_translation_never (prompt : string) :
  never_raises (get_ai_translation prompt).
Proof. apply never_try_except. intros e. apply never_ret. Qed.

End EnhancedFacts.

(** X13: for a text without idioms and cultural references and of neutral
    formality, [enhanced_translate_with_context] does not turn to the LLM:
    it does what [translate_text] does. *)
Theorem enhanced_translate_plain_text
    {Env : Type} `{Ext : External Env}
    (text target : string) (source : option string) (w : World Env) :
  has_idioms (detect_linguistic_complexity text) = false ->
  formality_level (detect_linguistic_complexity text) = neutral_formality ->
  has_cultural_references (detect_linguistic_complexity text) = false ->
  enhanced_translate_with_context text target source w
  = translate_text text target source w.
Proof.
  intros Hi Hf Hc.
  destruct (translate_text_returns text target source w) as (out & w' & E).
  rewrite E. apply try_except_returned.
  cbv zeta. rewrite Hi, Hf, Hc. cbn [orb]. exact E.
Qed.

Lemma enhanced_translate_plain_text_witness :
  enhanced_translate_with_context "good night" "es" (Some "en") world_up
  = translate_text "good night" "es" (Some "en") world_up.
Proof.
  apply enhanced_translate_plain_text; vm_compute; reflexivity.
Defined.

(** X14: [enhanced_translate_with_context] never raises, and what it
    returns is either a text accepted from the LLM, which is not empty
    and does not begin with a refusal phrase, or what [translate_text]
    returns for the same text, target and source. *)
Theorem enhanced_translate_result
    {Env : Type} `{Ext : External Env}
    (text target : string) (source : option string) (w : World Env) :
  exists out w',
    enhanced_translate_with_context text target source w = (Returned out, w')
    /\ ((out <> "" /\ is_refusal out = false
         /\ exists prompt,
              get_ai_translation prompt w = (Returned (Some out), w'))
        \/ exists w1,
             translate_text text target source w1 = (Returned out, w')).
Proof.
  assert (Hplain : forall w1,
            exists out w',
              translate_text text target source w1 = (Returned out, w')
              /\ ((out <> "" /\ is_refusal out = false
                   /\ exists prompt,
                        get_ai_translation prompt w
                        = (Returned (Some out), w'))
                  \/ exists w2,
                       translate_text text target source w2
                       = (Returned out, w'))).
  { intros w1.
    destruct (translate_text_returns text target source w1) as (o & w2 & E).
    exists o, w2. split; [exact E |]. right. now exists w1. }
  unfold enhanced_translate_with_context, try_except. cbv zeta.
  destruct (_ || _).
  - unfold bind.
    set (prompt := context_prompt text target source
                     (detect_linguistic_complexity text)).
    destruct (get_ai_translation_never prompt w) as (ai & w1 & Eai).
    rewrite Eai.
    destruct ai as [t |].
    + destruct (negb (String.eqb t "") && (0 <? Py.len (Py.strip t))) eqn:Ok.
      * unfold ret. exists t, w1. split; [reflexivity |]. left.
        destruct (requests_post OLLAMA_URL (translation_payload prompt) 20
                    (env w)) as [probe e'] eqn:Hpost.
        pose proof Eai as Eai'.
        rewrite (get_ai_translation_resolved _ _ _ _ Hpost) in Eai'.
        destruct probe as [e | r]; [discriminate |].
        destruct (status_code r =? 200); [| discriminate].
        destruct (json r) as [result |]; [| discriminate].
        destruct (String.eqb (response_text result) "") eqn:He;
          [discriminate |].
        destruct (is_refusal (response_text result)) eqn:Hr; [discriminate |].
        cbn [negb andb] in Eai'. injection Eai' as Ht _. subst t.
        split; [now apply String.eqb_neq |]. split; [exact Hr |].
        now exists prompt.
      * destruct (Hplain w1) as (o & w2 & E & Hor). rewrite E. eauto.
    + destruct (Hplain w1) as (o & w2 & E & Hor). rewrite E. eauto.
  - destruct (Hplain w) as (o & w2 & E & Hor). rewrite E. eauto.
Qed.

(** ** Fallback replies *)

(** X15: the fallback reply is the English one for every language other
    than Spanish and French, and, unless the message is a greeting, for
    Hindi as well: only the greeting has a Hindi text. *)
Theorem get_fallback_response_english
    {Env : Type} `{Ext : External Env} (message language : string) :
  language <> "es" ->
  language <> "fr" ->
  language <> "hi" \/ fallback_kind message <> fb_greeting ->
  get_fallback_response message language
  = english_reply (fallback_kind message) message.
Proof.
  intros Hes Hfr Hhi. unfold get_fallback_response.
  apply String.eqb_neq in Hes, Hfr.
  destruct (fallback_kind message) eqn:K; cbn [localized_languages existsb];
    rewrite Hes, Hfr; cbn [orb]; try reflexivity.
  destruct Hhi as [Hhi | Hk]; [| congruence].
  apply String.eqb_neq in Hhi. now rewrite Hhi.
Qed.

Lemma get_fallback_response_english_witness :
  get_fallback_response (Ext := sample_external)
    "translate my words" "hi"
  = english_reply fb_translation "translate my words".
Proof.
  etransitivity.
  - apply get_fallback_response_english.
    + discriminate.
    + discriminate.
    + right. intros H. vm_compute in H. discriminate H.
  - vm_compute. reflexivity.
Defined.

(** ** Translation requests in chat *)

Lemma partition_some (sep s a b : string) :
  partition sep s = Some (a, b) -> s = a +:+ sep +:+ b.
Proof.
  revert a b. induction s as [| c s IH]; intros a b.
  - cbn [partition]. destruct (Py.startswith sep "") eqn:E; [| discriminate].
    intros [= <- <-]. rewrite append_nil_l. now apply startswith_drop.
  - cbn [partition]. destruct (Py.startswith sep (String c s)) eqn:E.
    + intros [= <- <-]. rewrite append_nil_l. now apply startswith_drop.
    + destruct (partition sep s) as [[a' b'] |]; [| discriminate].
      intros [= <- <-]. rewrite append_cons. f_equal. now apply IH.
Qed.

Lemma partition_none (sep s : string) :
  Py.contains sep s = false -> partition sep s = None.
Proof.
  induction s as [| c s IH]; cbn [Py.contains partition]; intros H;
    apply orb_false_iff in H; destruct H as [H1 H2]; rewrite H1;
    [reflexivity |].
  now rewrite (IH H2).
Qed.

(** A message that holds ["translate"] holds the language code ["te"]. *)
Lemma translate_holds_te (before after : string) :
  Py.contains "te" (Py.lower (before +:+ "translate" +:+ after)) = true.
Proof.
  rewrite !lower_append.
  replace (Py.lower before +:+ Py.lower "translate" +:+ Py.lower after)
    with ((Py.lower before +:+ "transla") +:+ "te" +:+ Py.lower after)
    by (rewrite append_assoc; reflexivity).
  apply contains_append.
Qed.

Lemma choose_target_reachable (message_lower target : string) :
  Py.contains "te" message_lower = true ->
  In (choose_target message_lower target) reachable_targets.
Proof.
  intros H. unfold choose_target, supported_languages, reachable_targets.
  cbn [List.find].
  repeat match goal with
         | |- context [if mentions message_lower ?kv then _ else _] =>
             lazymatch kv with
             | ("te", _) => fail
             | _ => destruct (mentions message_lower kv);
                    [cbn [fst In]; tauto |]
             end
         end.
  assert (Hte : mentions message_lower ("te", "Telugu") = true)
    by (unfold mentions; cbn [fst]; rewrite H; apply orb_true_r).
  rewrite Hte. cbn [fst In]. tauto.
Qed.

Section RequestFacts.
Context {Env : Type} `{Ext : External Env}.


Lemma handle_translation_request_only (message target : string) :
  only_events is_translation_event
    (handle_translation_request message target).
Proof.
  apply only_try_except; [| intros e; apply only_ret].
  cbv zeta. destruct (Py.contains _ _); [| apply only_ret].
  destruct (partition _ _) as [[b a] |]; [| apply only_ret].
  destruct (negb _); [| apply only_ret].
  apply only_bind; [apply translate_text_only | intros t; apply only_ret].
Qed.

End RequestFacts.

(** X16: [handle_translation_request] looks for ["translate"] in the
    lower-cased message but cuts the message itself at ["translate"]: a
    message in which the word only occurs with capitals, such as the
    ["Translate hello to Spanish"] its own help text proposes, is answered
    with the help text, and nothing is detected or translated. *)
Theorem handle_translation_request_needs_lowercase
    {Env : Type} `{Ext : External Env}
    (message target : string) (w : World Env) :
  Py.contains "translate" message = false ->
  handle_translation_request message target w = (Returned translation_help, w).
Proof.
  intros H. unfold handle_translation_request, try_except. cbv zeta.
  rewrite (partition_none _ _ H).
  destruct (Py.contains "translate" (Py.lower message)); reflexivity.
Qed.

Lemma handle_translation_request_needs_lowercase_witness :
  Py.contains "translate" (Py.lower "Translate hello to Spanish") = true
  /\ handle_translation_request "Translate hello to Spanish" "es" world_up
     = (Returned translation_help, world_up).
Proof.
  split; [vm_compute; reflexivity |].
  apply handle_translation_request_needs_lowercase.
  vm_compute. reflexivity.
Defined.

(** X17: [handle_translation_request] never raises.  It answers with the
    help text, touching nothing, or with ["Translation: "] followed by
    what [translate_text] returns for a non-empty text, no source
    language, and a target that is one of en, es, fr, de, hi, te: since
    the message holds ["translate"], it holds the code ["te"], so the
    search through the language table stops at Telugu at the latest; the
    target passed by the caller and the thirteen languages listed after
    Telugu are never chosen. *)
Theorem handle_translation_request_target
    {Env : Type} `{Ext : External Env}
    (message target : string) (w : World Env) :
  exists out w',
    handle_translation_request message target w = (Returned out, w')
    /\ ((out = translation_help /\ w' = w)
        \/ exists text code translated,
             text <> ""
             /\ In code reachable_targets
             /\ translate_text text code None w = (Returned translated, w')
             /\ out = "Translation: " +:+ translated).
Proof.
  unfold handle_translation_request, try_except. cbv zeta.
  destruct (Py.contains "translate" (Py.lower message));
    [| unfold ret; eauto 6].
  destruct (partition "translate" message) as [[before after] |] eqn:P;
    [| unfold ret; eauto 6].
  destruct (String.eqb (text_after_translate after) "") eqn:E;
    cbn [negb]; [unfold ret; eauto 6 |].
  unfold bind.
  destruct (translate_text_returns (text_after_translate after)
              (choose_target (Py.lower message) target) None w)
    as (t & w1 & Et).
  rewrite Et. unfold ret. exists ("Translation: " +:+ t), w1.
  split; [reflexivity |]. right.
  exists (text_after_translate after),
         (choose_target (Py.lower message) target), t.
  split; [now apply String.eqb_neq |]. split; [| auto].
  apply choose_target_reachable.
  rewrite (partition_some _ _ _ _ P). apply translate_holds_te.
Qed.

(** ** The translate and chat endpoints *)

Section Postconditions.
Context {Env : Type}.




Lemma returns_try_except {A} (post : A -> Prop) (m : M Env A)
    (h : Exn -> M Env A) :
  returns_with post m -> returns_with post (try_except m h).
Proof.
  intros H w. unfold try_except. destruct (H w) as (a & w1 & E & Pa).
  rewrite E. eauto.
Qed.

End Postconditions.

Section EndpointFacts.
Context {Env : Type} `{Ext : External Env}.

Lemma detect_language_returns_supported (text : string) :
  returns_with (fun code => is_supported code = true) (detect_language text).
Proof.
  intros w. unfold detect_language, try_except, bind, call, ret.
  destruct (langdetect_detect text (env w)) as [[e | d] e']; [eauto |].
  destruct (is_supported d) eqn:S; eauto.
Qed.


Lemma enhanced_translate_never (text target : string)
    (source : option string) :
  never_raises (enhanced_translate_with_context text target source).
Proof. apply never_try_except. intros e. apply translate_text_never. Qed.


End EndpointFacts.

(** X18: [/api/translate] answers 500 only when the body is no JSON
    object and 400 only when the text is missing or empty, in both cases
    without calling any service; for every other request it answers 200
    with the requested target language, whatever the detector and the
    engine do: a failing engine shows as a ["Translation failed: ..."]
    text in a 200 answer. *)
Theorem translate_endpoint_status
    {Env : Type} `{Ext : External Env}
    (request_json : option (gmap string string)) (w : World Env) :
  exists body status w',
    translate request_json w = (Returned (body, status), w')
    /\ match request_json with
       | None =>
           body = translate_error "Translation failed" /\ status = 500
           /\ w' = w
       | Some data =>
           if String.eqb (default "" (data !! "text")) "" then
             body = translate_error "Text is required" /\ status = 400
             /\ w' = w
           else
             status = 200
             /\ exists reply,
                  body = translate_ok reply
                  /\ reply_target_language reply
                     = default "en" (data !! "target_language")
       end.
Proof.
  unfold translate, try_except, bind, get_json_object.
  destruct request_json as [data |].
  - unfold ret at 1. cbv beta iota zeta.
    destruct (String.eqb (default "" (data !! "text")) "").
    + unfold ret. do 3 eexists. split; [reflexivity |]. auto.
    + destruct (translate_text_returns (default "" (data !! "text"))
                  (default "en" (data !! "target_language"))
                  (data !! "source_language") w) as (t & w1 & Et).
      rewrite Et.
      destruct (detect_language_returns (default "" (data !! "text")) w1)
        as (l & w2 & El).
      destruct (data !! "source_language") as [[| a s0] |];
        cbv beta iota; rewrite ?El; unfold ret;
        (do 3 eexists; split; [reflexivity |]; split; [reflexivity |];
         eexists; split; reflexivity).
  - unfold raise_msg, raise, ret.
    do 3 eexists. split; [reflexivity |]. auto.
Qed.

(** X19: [/api/chat] on a body that is no JSON object: the exception is
    caught by the handler's [except] clause, which reads [input_language]
    before it was bound, so an exception leaves the handler and no JSON
    answer is produced; the world is untouched. *)
Theorem chat_raises_without_json
    {Env : Type} `{Ext : External Env} (w : World Env) :
  exists e, chat None w = (Raised e, w).
Proof.
  cbv [chat bind try_except get_json_object raise_msg raise].
  eexists. reflexivity.
Qed.


(** ** The file translation endpoint *)

Lemma take_length (n : nat) (s : string) : String.length (Py.take n s) <= n.
Proof.
  revert s. induction n as [| n IH]; intros s; [destruct s; cbn; lia |].
  destruct s as [| c s]; cbn [Py.take String.length]; [lia |].
  specialize (IH s). lia.
Qed.

(** X21: an upload whose extension is .pdf, .doc or .docx, in any case of
    letters, is not translated: [/api/translate-file] answers 400 with
    the placeholder text as the error, whatever the bytes of the file,
    and calls no service. *)
Theorem translate_file_rejects_pdf_and_word
    {Env : Type} `{Ext : External Env}
    (request : FileRequest) (file : FileStorage) (w : World Env) :
  files_file request = Some file ->
  filename file <> "" ->
  In (Py.lower (splitext_ext (filename file))) [".pdf"; ".doc"; ".docx"] ->
  translate_file request w
  = (Returned
       (body_error
          (if String.eqb (Py.lower (splitext_ext (filename file))) ".pdf"
           then pdf_placeholder else word_placeholder), 400), w).
Proof.
  intros Hfile Hname Hext.
  unfold translate_file, try_except. rewrite Hfile.
  apply String.eqb_neq in Hname. rewrite Hname.
  unfold extract_text_from_file.
  destruct Hext as [<- | [<- | [<- | []]]]; reflexivity.
Qed.

Lemma translate_file_rejects_pdf_and_word_witness :
  translate_file
    {| files_file := Some {| filename := "Annual.Report.PDF";
                             file_bytes := [] |};
       form := ∅ |} world_up
  = (Returned (body_error pdf_placeholder, 400), world_up).
Proof.
  etransitivity.
  - apply (translate_file_rejects_pdf_and_word
             {| files_file := Some {| filename := "Annual.Report.PDF";
                                      file_bytes := [] |};
                form := ∅ |}
             {| filename := "Annual.Report.PDF"; file_bytes := [] |}
             world_up).
    + reflexivity.
    + discriminate.
    + vm_compute. tauto.
  - vm_compute. reflexivity.
Defined.

(** X22: whenever [/api/translate-file] answers with a report, the status
    is 200; the preview [original_content] has at most 503 characters
    (the first 500 and three dots); [translated_char_count] is the length
    of [translated_content], [file_size] the number of bytes uploaded,
    the detected language a supported code, and the reported source
    language the form's, unless that is missing, empty or ["auto"], when
    it is the detected one. *)
Theorem translate_file_report
    {Env : Type} `{Ext : External Env}
    (request : FileRequest) (w w' : World Env) (report : FileReport)
    (status : nat) :
  translate_file request w = (Returned (body_file report, status), w') ->
  status = 200
  /\ Py.len (original_content report) <= 503
  /\ translated_char_count report = Py.len (translated_content report)
  /\ is_supported (detected_language report) = true
  /\ (exists file,
        files_file request = Some file
        /\ file_size report = length (file_bytes file)
        /\ original_filename report = filename file)
  /\ source_language report
     = match form request !! "source_language" with
       | Some s =>
           if negb (String.eqb s "") && negb (String.eqb s "auto")
           then s else detected_language report
       | None => detected_language report
       end.
Proof.
  unfold translate_file, try_except.
  destruct (files_file request) as [file |]; [| discriminate].
  destruct (String.eqb (filename file) ""); [discriminate |].
  cbv zeta.
  set (text_content := extract_text_from_file (file_bytes file) (filename file)).
  destruct (_ || _); [discriminate |].
  unfold bind.
  destruct (detect_language_returns_supported (Py.take 1000 text_content) w)
    as (d & w1 & Ed & Hd).
  rewrite Ed.
  match goal with
  | |- context [translate_file_content ?t ?tg ?src w1] =>
      destruct (translate_file_content_never t tg src w1) as (tr & w2 & Et);
      rewrite Et
  end.
  unfold ret. intros Heq.
  match type of Heq with
  | (Returned (body_file ?R, _), _) = _ =>
      assert (Hr : R = report) by congruence;
      assert (Hs : 200 = status) by congruence
  end.
  clear Heq. rewrite <- Hr, <- Hs. clear Hr Hs.
  cbv beta iota delta
    [original_content translated_char_count translated_content
     detected_language file_size original_filename source_language].
  split; [reflexivity |]. split.
  - destruct (Nat.ltb_spec 500 (Py.len text_content)) as [L | G].
    + unfold Py.len. rewrite length_append.
      pose proof (take_length 500 text_content).
      change (String.length "...") with 3. lia.
    + lia.
  - split; [reflexivity |]. split; [exact Hd |]. split; [eauto |].
    destruct (form request !! "source_language"); reflexivity.
Qed.

Lemma translate_file_report_witness :
  exists report,
    fst (translate_file {| files_file := Some plain_notes;
                           form := {[ "target_language" := "es" ]} |}
           world_up)
    = Returned (body_file report, 200)
    /\ translated_content report = "[es] good morning"
    /\ Py.len (original_content report) <= 503.
Proof.
  destruct (translate_file {| files_file := Some plain_notes;
                              form := {[ "target_language" := "es" ]} |}
              world_up) as [r w'] eqn:E.
  assert (Hr : exists report,
            r = Returned (body_file report, 200)
            /\ translated_content report = "[es] good morning").
  { apply (f_equal fst) in E. cbn [fst] in E. rewrite <- E.
    eexists. split; vm_compute; reflexivity. }
  destruct Hr as (report & -> & Ht).
  exists report. cbn [fst]. split; [reflexivity |]. split; [exact Ht |].
  exact (proj1 (proj2 (translate_file_report _ _ _ _ _ E))).
Defined.

(** ** The speech endpoint *)

(** X23: [/api/speech-to-text] answers without creating a file, and
    without any other effect, when speech recognition is not available
    (400), when the body is no JSON object (500), and when the audio is
    missing or empty (400); the availability is checked before the body
    is read. *)
Theorem speech_to_text_early_exit
    {Env : Type} `{Ext : External Env}
    (request_json : option (gmap string string)) (w : World Env) :
  WHISPER_AVAILABLE = false
  \/ request_json = None
  \/ (exists data,
        request_json = Some data /\ default "" (data !! "audio") = "") ->
  speech_to_text request_json w
  = (if negb WHISPER_AVAILABLE then
       Returned
         (body_error
            "Speech recognition not available on server. Using browser recognition.",
          400)
     else
       match request_json with
       | None => Returned (body_error "Speech recognition failed", 500)
       | Some _ => Returned (body_error "No audio data provided", 400)
       end,
     w).
Proof.
  intros H.
  cbv [speech_to_text try_except bind ret raise raise_msg].
  destruct WHISPER_AVAILABLE; cbn [negb]; [| reflexivity].
  destruct H as [H | [-> | (data & -> & Ha)]];
    [discriminate | reflexivity |].
  rewrite Ha. reflexivity.
Qed.

Lemma speech_to_text_early_exit_witness :
  speech_to_text None world_up
  = (Returned (body_error "Speech recognition failed", 500), world_up).
Proof.
  etransitivity.
  - apply speech_to_text_early_exit. right. left. reflexivity.
  - reflexivity.
Defined.

(** X24: the temporary file is created and written before the
    [try ... finally] that removes it.  When the write raises, the handler
    answers 500 and the file it has created, still empty, stays on
    disk. *)
Theorem speech_to_text_leaves_file_when_write_fails
    {Env : Type} `{Ext : External Env}
    (data : gmap string string) (w : World Env) (audio_bytes : bytes)
    (p : path) (e : Exn) :
  WHISPER_AVAILABLE = true ->
  default "" (data !! "audio") <> "" ->
  b64decode (default "" (data !! "audio")) = Returned audio_bytes ->
  mkstemp_name (env w) (fs w) = Returned p ->
  write_result (env w) p audio_bytes = Raised e ->
  speech_to_text (Some data) w
  = (Returned (body_error "Speech recognition failed", 500),
     {| env := env w; fs := <[p := []]> (fs w);
        log := ev_create p :: log w |})
  /\ (<[p := []]> (fs w) : gmap path bytes) !! p = Some [].
Proof.
  intros Hw Ha Hb Hm Hwr. split; [| apply lookup_insert_eq].
  apply String.eqb_neq in Ha.
  cbv [speech_to_text try_except bind ret raise raise_msg
       named_temporary_file file_write].
  rewrite Hw. cbn [negb]. rewrite Ha, Hb, Hm. cbn [env fs log].
  rewrite Hwr. reflexivity.
Qed.

Lemma speech_to_text_leaves_file_when_write_fails_witness :
  let w' :=
    snd (@speech_to_text SampleEnv disk_full_external
           (Some {[ "audio" := "QUJD" ]}) world_up) in
  fst (@speech_to_text SampleEnv disk_full_external
         (Some {[ "audio" := "QUJD" ]}) world_up)
  = Returned (body_error "Speech recognition failed", 500)
  /\ fs w' !! "/tmp/tmpk3a9.wav" = Some [].
Proof.
  destruct (@speech_to_text_leaves_file_when_write_fails
              SampleEnv disk_full_external
              {[ "audio" := "QUJD" ]} world_up (list_byte_of_string "QUJD")
              "/tmp/tmpk3a9.wav" disk_full) as [E L].
  - reflexivity.
  - vm_compute. discriminate.
  - reflexivity.
  - reflexivity.
  - reflexivity.
  - cbv zeta. rewrite E. cbn [fst snd fs]. split; [reflexivity | exact L].
Defined.

(** ** Linguistic analyzer *)

Lemma lower_char_idempotent (c : ascii) :
  Py.lower_char (Py.lower_char c) = Py.lower_char c.
Proof.
  destruct c as [[] [] [] [] [] [] [] []]; vm_compute; reflexivity.
Qed.

Lemma lower_idempotent (s : string) : Py.lower (Py.lower s) = Py.lower s.
Proof.
  induction s as [| c s IH]; [reflexivity |].
  cbn [Py.lower]. now rewrite lower_char_idempotent, IH.
Qed.

(** X25: the keyword verdicts of the analyzer do not depend on the case
    of the letters: a text and its lower-cased form get the same idiom
    flag, formality, cultural-reference flag and sentiment. *)
Theorem analyzer_ignores_case (text : string) :
  has_idioms (detect_linguistic_complexity (Py.lower text))
  = has_idioms (detect_linguistic_complexity text)
  /\ formality_level (detect_linguistic_complexity (Py.lower text))
     = formality_level (detect_linguistic_complexity text)
  /\ has_cultural_references (detect_linguistic_complexity (Py.lower text))
     = has_cultural_references (detect_linguistic_complexity text)
  /\ sentiment (detect_linguistic_complexity (Py.lower text))
     = sentiment (detect_linguistic_complexity text).
Proof.
  cbn [detect_linguistic_complexity has_idioms formality_level
       has_cultural_references sentiment].
  rewrite lower_idempotent. repeat split.
Qed.

Lemma split_go_without_separator (sep s : string) :
  Py.contains sep s = false -> Py.split_go sep 0 s = [s].
Proof.
  induction s as [| c s IH]; intros H; [reflexivity |].
  cbn [Py.contains] in H. apply orb_false_iff in H. destruct H as [H1 H2].
  cbn [Py.split_go]. rewrite H1, (IH H2). reflexivity.
Qed.

(** X26: for a text without a period and without a complex-structure
    marker, the grammar verdict is decided by the number of words alone:
    simple up to 8 words, moderate from 9 to 15, complex from 16 on. *)
Theorem assess_grammar_complexity_one_sentence (text : string) :
  Py.contains "." text = false ->
  Py.any_in complex_markers (Py.lower text) = false ->
  assess_grammar_complexity text
  = if 15 <? length (Py.split_ws text) then complex
    else if 8 <? length (Py.split_ws text) then moderate
    else simple.
Proof.
  intros Hdot Hmark. unfold assess_grammar_complexity, Py.split.
  rewrite (split_go_without_separator _ _ Hdot), Hmark.
  cbv zeta. unfold total_words, list_sum.
  cbn [map fold_right length Nat.max].
  rewrite Nat.add_0_r, orb_false_r.
  replace (15 * 1) with 15 by reflexivity.
  replace (8 * 1) with 8 by reflexivity.
  reflexivity.
Qed.

Lemma assess_grammar_complexity_one_sentence_witness :
  assess_grammar_complexity
    "one two three four five six seven eight nine ten"
  = moderate.
Proof.
  etransitivity.
  - apply assess_grammar_complexity_one_sentence; vm_compute; reflexivity.
  - vm_compute. reflexivity.
Defined.

(** ** Translation without a source language *)

(** X27: when no source language is given and the detector fails, or
    names English or a language outside the supported table, the text is
    taken to be English: a translation into English then returns the
    text as it is, and the engine is not called. *)
Theorem translate_text_undetected_into_english
    {Env : Type} `{Ext : External Env} (text : string) (w : World Env) :
  match fst (langdetect_detect text (env w)) with
  | Raised _ => True
  | Returned detected => is_supported detected = false \/ detected = "en"
  end ->
  translate_text text "en" None w
  = (Returned text,
     {| env := snd (langdetect_detect text (env w)); fs := fs w;
        log := ev_detect text :: log w |}).
Proof.
  intros H.
  assert (Hsrc : resolve_source None text w
                 = (Returned "en",
                    {| env := snd (langdetect_detect text (env w));
                       fs := fs w; log := ev_detect text :: log w |})).
  { cbn [resolve_source].
    unfold detect_language, try_except, bind, call, ret.
    destruct (langdetect_detect text (env w)) as [[e | d] e'];
      cbn [fst snd] in *; [reflexivity |].
    destruct H as [H | ->]; [now rewrite H | reflexivity]. }
  rewrite (translate_text_resolved _ _ _ _ _ _ Hsrc). reflexivity.
Qed.

Lemma translate_text_undetected_into_english_witness :
  fst (translate_text "bonjour" "en" None world_up) = Returned "bonjour".
Proof.
  rewrite (translate_text_undetected_into_english "bonjour" world_up).
  - reflexivity.
  - cbn. right. reflexivity.
Defined.
